(** * UI.py: chunking, ingestion, handbook synthesis and chat routing

    A shallow embedding of [src/UI.py].  Python [str] values are Rocq
    [string]s read one character per element; Python [int]s are [Z];
    the hosted services (embedding provider, vector store, completion
    provider, PDF reader) are fields of a [Services] record acting on an
    abstract world state, and every call to one of them is logged in a
    trace next to the values a generator yields. *)

From Stdlib Require Import ZArith List Bool Lia.
From Stdlib Require Import Strings.Ascii Strings.String Numbers.DecimalString.
From Stdlib Require Import Numbers.DecimalZ.
Import ListNotations.

Open Scope string_scope.
Open Scope Z_scope.

(** ** Python string primitives *)

Module Py.

(** [len(s)] *)
Definition len (s : string) : Z := Z.of_nat (String.length s).

(** [bool(s)] of a string: the empty string is falsy. *)
Definition truthy (s : string) : bool :=
  match s with
  | EmptyString => false
  | String _ _ => true
  end.

(** [str.isspace] on one character, for code points below 256:
    TAB..CR, FS..US, space, NEL and NBSP. *)
Definition isspace (c : ascii) : bool :=
  let n := Z.of_nat (nat_of_ascii c) in
  ((9 <=? n) && (n <=? 13)) || ((28 <=? n) && (n <=? 32))
  || (n =? 133) || (n =? 160).

(** [s.lstrip()] *)
Fixpoint lstrip (s : string) : string :=
  match s with
  | EmptyString => EmptyString
  | String c r => if isspace c then lstrip r else s
  end.

(** [s.rstrip()] *)
Fixpoint rstrip (s : string) : string :=
  match s with
  | EmptyString => EmptyString
  | String c r =>
      match rstrip r with
      | EmptyString => if isspace c then EmptyString else String c EmptyString
      | r' => String c r'
      end
  end.

(** [s.strip()] *)
Definition strip (s : string) : string := rstrip (lstrip s).

(** [s.split()]: the maximal runs of non-whitespace characters.  [w] is
    the run being read. *)
Fixpoint split_from (w s : string) : list string :=
  match s with
  | EmptyString => if truthy w then [w] else []
  | String c r =>
      if isspace c
      then (if truthy w then w :: split_from EmptyString r
            else split_from EmptyString r)
      else split_from (w ++ String c EmptyString) r
  end.

Definition split (s : string) : list string := split_from EmptyString s.

(** [sep.join(parts)] *)
Definition join (sep : string) (parts : list string) : string :=
  String.concat sep parts.

(** One character of [s.lower()], for code points below 256. *)
Definition lower_char (c : ascii) : ascii :=
  let n := nat_of_ascii c in
  if ((65 <=? n) && (n <=? 90))%nat
     || (((192 <=? n) && (n <=? 222))%nat && negb (n =? 215)%nat)
  then ascii_of_nat (n + 32)
  else c.

(** [s.lower()] *)
Fixpoint lower (s : string) : string :=
  match s with
  | EmptyString => EmptyString
  | String c r => String (lower_char c) (lower r)
  end.

(** [s.startswith(p)] *)
Definition startswith (s p : string) : bool := String.prefix p s.

(** Index normalisation of a slice bound: a negative bound counts from
    the end, and every bound is clipped to [0, n]. *)
Definition clip (n i : Z) : Z :=
  if i <? 0 then Z.max (i + n) 0 else Z.min i n.

(** [s[start:stop]] *)
Definition slice (s : string) (start stop : Z) : string :=
  let lo := clip (len s) start in
  let hi := clip (len s) stop in
  String.substring (Z.to_nat lo) (Z.to_nat (hi - lo)) s.

(** [s[start:]] *)
Definition slice_from (s : string) (start : Z) : string :=
  let lo := clip (len s) start in
  String.substring (Z.to_nat lo) (Z.to_nat (len s - lo)) s.

(** [str(i)], as an f-string formats an [int]. *)
Definition str_of_int (i : Z) : string :=
  NilEmpty.string_of_int (Z.to_int i).

End Py.

(** The line feed character, and the separator used by every join. *)
Definition LF : string := String (ascii_of_nat 10) EmptyString.
Definition LFLF : string := LF ++ LF.

(** ** Outcomes

    A call returns, raises, or (for the model of a [while] loop) is
    still running when the iteration budget is used up. *)
Inductive outcome (A : Type) : Type :=
| Returned (a : A)
| Raised (msg : string)
| OutOfFuel.
Arguments Returned {A} a.
Arguments Raised {A} msg.
Arguments OutOfFuel {A}.

(** ** CHUNKING *)

Record Chunk : Type := mkChunk { id : string; content : string }.

(** The [while start < len(text)] loop of [chunk_text]; [fuel] bounds the
    number of iterations. *)
Fixpoint chunk_text_loop (fuel : nat) (text : string) (size overlap : Z)
    (chunks : list Chunk) (start i : Z) : outcome (list Chunk) :=
  if start <? Py.len text then
    match fuel with
    | O => OutOfFuel
    | S fuel' =>
        let end_ := start + size in
        let chunks' :=
          (chunks ++ [mkChunk ("chunk_" ++ Py.str_of_int i)
                              (Py.slice text start end_)])%list in
        chunk_text_loop fuel' text size overlap chunks' (end_ - overlap) (i + 1)
    end
  else Returned chunks.

(** [chunk_text(text, size, overlap)] *)
Definition chunk_text (fuel : nat) (text : string) (size overlap : Z)
  : outcome (list Chunk) :=
  chunk_text_loop fuel text size overlap [] 0 0.

(** ** External services, process state and traces *)

(** A token stream of the completion provider: the [delta.content] of
    each chunk it delivers ([None] when the field is absent), and the
    error that ends the iteration, if any. *)
Record Stream : Type := mkStream {
  deltas : list (option string);
  stream_error : option string
}.

(** What [pdfplumber] delivers for a file: [page.extract_text()] of the
    pages read before an exception, if any, stopped the reading. *)
Record PdfRead : Type := mkPdfRead {
  pages : list (option string);
  pdf_error : option string
}.

(** A conversation turn, [{"role": ..., "content": ...}]. *)
Module Turn.
Record t : Type := mk { role : string; content : string }.
End Turn.

Definition History : Type := list Turn.t.

Section Effects.

Context {W File Embedding : Type}.

(** The row sent to [supabase.table("documents").upsert]. *)
Record IndexedRecord : Type := mkRecord {
  rec_id : string;
  rec_content : string;
  rec_embedding : Embedding;
  rec_metadata : list (string * string)
}.

(** Calls that leave the process. *)
Inductive call : Type :=
| EmbeddingsCreate (model input : string)
| RpcMatchDocuments (query_embedding : Embedding) (match_count : Z)
| TableUpsert (table : string) (record : IndexedRecord)
| ChatCompletionsCreate (model system user : string) (max_tokens : Z)
| PdfOpen (file : File).

(** What an observer sees of a run: external calls and yielded values. *)
Inductive event (Y : Type) : Type :=
| Call (c : call)
| Yield (y : Y).
Arguments Call {Y} c.
Arguments Yield {Y} y.

(** The services answer from, and may change, the world [W].  A raised
    exception is [Raised] with its message. *)
Record Services : Type := mkServices {
  embeddings_create : string -> string -> W -> outcome Embedding * W;
  rpc_match_documents :
    Embedding -> Z -> W -> outcome (option (list string)) * W;
  table_upsert : string -> IndexedRecord -> W -> outcome unit * W;
  chat_completions_create :
    string -> string -> string -> Z -> W -> outcome Stream * W;
  pdf_open : File -> W -> PdfRead * W
}.

(** The world together with the module globals [PDF_TEXT] and [CHUNKS]. *)
Record State : Type := mkState {
  world : W;
  PDF_TEXT : string;
  CHUNKS : list Chunk
}.

(** A computation that logs events of yield type [Y], threads the state
    and ends in an outcome. *)
Definition Gen (Y A : Type) : Type :=
  State -> list (event Y) * State * outcome A.

Definition ret {Y A} (a : A) : Gen Y A := fun s => ([], s, Returned a).

Definition raise {Y A} (msg : string) : Gen Y A :=
  fun s => ([], s, Raised msg).

Definition out_of_fuel {Y A} : Gen Y A := fun s => ([], s, OutOfFuel).

Definition bind {Y A B} (m : Gen Y A) (k : A -> Gen Y B) : Gen Y B :=
  fun s =>
    match m s with
    | (t1, s1, Returned a) =>
        match k a s1 with
        | (t2, s2, o) => ((t1 ++ t2)%list, s2, o)
        end
    | (t1, s1, Raised msg) => (t1, s1, Raised msg)
    | (t1, s1, OutOfFuel) => (t1, s1, OutOfFuel)
    end.

Definition yield {Y} (y : Y) : Gen Y unit :=
  fun s => ([Yield y], s, Returned tt).

(** One external call: logged, answered by the service on the world. *)
Definition extern {Y A} (c : call) (f : W -> outcome A * W) : Gen Y A :=
  fun s =>
    match f (world s) with
    | (o, w') => ([Call c], mkState w' (PDF_TEXT s) (CHUNKS s), o)
    end.

(** [try: m except Exception as e: handler(str(e))] *)
Definition try_except {Y A} (m : Gen Y A) (handler : string -> Gen Y A)
  : Gen Y A :=
  fun s =>
    match m s with
    | (t1, s1, Raised msg) =>
        match handler msg s1 with
        | (t2, s2, o) => ((t1 ++ t2)%list, s2, o)
        end
    | r => r
    end.

Definition set_PDF_TEXT {Y} (v : string) : Gen Y unit :=
  fun s => ([], mkState (world s) v (CHUNKS s), Returned tt).

Definition set_CHUNKS {Y} (v : list Chunk) : Gen Y unit :=
  fun s => ([], mkState (world s) (PDF_TEXT s) v, Returned tt).

(** A pure call whose result is an outcome. *)
Definition lift {Y A} (o : outcome A) : Gen Y A := fun s => ([], s, o).

(** The events of [for y in g: body], where [body] changes the local
    variables [l] and yields, and [t] is the trace of [g]. *)
Fixpoint for_yields {Y1 Y2 L} (body : Y1 -> L -> L * list Y2)
    (t : list (event Y1)) (l : L) : list (event Y2) * L :=
  match t with
  | [] => ([], l)
  | Call c :: t' =>
      match for_yields body t' l with
      | (r, l') => (Call c :: r, l')
      end
  | Yield y :: t' =>
      match body y l with
      | (l1, ys) =>
          match for_yields body t' l1 with
          | (r, l') => ((map Yield ys ++ r)%list, l')
          end
      end
  end.

(** [for y in g: body] inside a generator. *)
Definition for_in {Y1 Y2 L} (g : Gen Y1 unit) (body : Y1 -> L -> L * list Y2)
    (l : L) : Gen Y2 L :=
  fun s =>
    match g s with
    | (t, s', o) =>
        match for_yields body t l with
        | (t', l') =>
            (t', s',
             match o with
             | Returned _ => Returned l'
             | Raised msg => Raised msg
             | OutOfFuel => OutOfFuel
             end)
        end
    end.

End Effects.

Arguments IndexedRecord : clear implicits.
Arguments call : clear implicits.
Arguments event : clear implicits.
Arguments Services : clear implicits.
Arguments State : clear implicits.
Arguments Gen : clear implicits.
Arguments Call {File Embedding Y} c.
Arguments Yield {File Embedding Y} y.

Declare Scope gen_scope.
Delimit Scope gen_scope with gen.
Notation "x <- m ;; k" := (bind m (fun x => k))
  (at level 61, m at next level, right associativity) : gen_scope.
Notation "m ;;; k" := (bind m (fun _ => k))
  (at level 61, right associativity) : gen_scope.
Open Scope gen_scope.

(** ** The program *)

Section Program.

Context {W File Embedding : Type}.
Variable sv : Services W File Embedding.

(** *** PDF *)

(** The text accumulated by the page loop of [extract_pdf_text]. *)
Fixpoint pages_text (text : string) (ps : list (option string)) : string :=
  match ps with
  | [] => text
  | Some t :: ps' =>
      if Py.truthy t then pages_text (text ++ t ++ LF) ps'
      else pages_text text ps'
  | None :: ps' => pages_text text ps'
  end.

(** [extract_pdf_text(file)]: an exception while reading is caught and
    the text read so far is returned; the warning it prints goes to the
    console and is not part of the trace. *)
Definition extract_pdf_text {Y} (file : File) : Gen W File Embedding Y string :=
  r <- extern (PdfOpen file)
         (fun w => match pdf_open sv file w with
                   | (r, w') => (Returned r, w')
                   end) ;;
  ret (pages_text "" (pages r)).

(** *** EMBEDDINGS *)

(** [embed(text)] *)
Definition embed {Y} (text : string) : Gen W File Embedding Y Embedding :=
  extern (EmbeddingsCreate "text-embedding-3-small" text)
         (embeddings_create sv "text-embedding-3-small" text).

(** *** STORE *)

(** [store_chunks(chunks)] *)
Fixpoint store_chunks {Y} (chunks : list Chunk) : Gen W File Embedding Y unit :=
  match chunks with
  | [] => ret tt
  | c :: rest =>
      e <- embed (content c) ;;
      let record := mkRecord (id c) (content c) e [("source", "pdf")] in
      extern (TableUpsert "documents" record)
             (table_upsert sv "documents" record) ;;;
      store_chunks rest
  end.

(** *** SEARCH *)

(** [search_supabase(query, k)] *)
Definition search_supabase {Y} (query : string) (k : Z)
  : Gen W File Embedding Y (list string) :=
  emb <- embed query ;;
  data <- extern (RpcMatchDocuments emb k) (rpc_match_documents sv emb k) ;;
  ret (match data with
       | Some (r :: rs) => r :: rs
       | _ => []
       end).

(** *** PROMPT *)

(** [handbook_prompt(topic, context, section)] *)
Definition handbook_prompt (topic context : string) (section : Z) : string :=
  LF ++ "You are writing a professional technical handbook." ++ LF
  ++ LF ++ "Topic: " ++ topic ++ LF
  ++ LF ++ "Context:" ++ LF
  ++ context ++ LF
  ++ LF ++ "Write SECTION " ++ Py.str_of_int section ++ "." ++ LF
  ++ "- Clear headings" ++ LF
  ++ "- Detailed explanation" ++ LF
  ++ "- No repetition" ++ LF.

(** *** STREAMING *)

Definition GUIDANCE : string :=
  "Please provide a meaningful topic after 'create a handbook'".

Definition FINISHED : string := "**Handbook generation finished.**".

(** The local variables of [generate_handbook_stream]. *)
Record Synth : Type := mkSynth {
  section : Z;
  document_parts : list string;
  total_words : Z
}.

(** The [for chunk in stream] loop.  The result tells whether it was
    left by [break]. *)
Fixpoint for_chunk_in_stream (chunks : list (option string))
    (section_text : string) (st : Synth)
  : Gen W File Embedding string (string * Synth * bool) :=
  match chunks with
  | [] => ret (section_text, st, false)
  | delta :: rest =>
      section_text <-
        (match delta with
         | Some (String c r) =>
             let section_text := section_text ++ String c r in
             let current_text :=
               Py.join LFLF (document_parts st ++ [section_text])%list in
             yield current_text ;;;
             ret section_text
         | _ => ret section_text
         end) ;;
      let st :=
        if Py.truthy (Py.strip section_text)
        then mkSynth (section st)
               (document_parts st ++ [Py.strip section_text])%list
               (total_words st
                + Z.of_nat (List.length (Py.split section_text)))
        else st in
      let st := mkSynth (section st + 1) (document_parts st)
                  (total_words st) in
      if 25 <? section st
      then ret (section_text, st, true)
      else for_chunk_in_stream rest section_text st
  end.

(** The [while total_words < target_words] loop; [fuel] bounds the
    number of iterations. *)
Fixpoint handbook_loop (fuel : nat) (topic : string) (target_words : Z)
    (st : Synth) : Gen W File Embedding string Synth :=
  if total_words st <? target_words then
    match fuel with
    | O => out_of_fuel
    | S fuel' =>
        results <- search_supabase topic 5 ;;
        let context := Py.join LFLF results in
        let prompt := handbook_prompt topic context (section st) in
        stream <-
          extern (ChatCompletionsCreate "llama-3.1-70b-versatile"
                    "You are a technical writer." prompt 2048)
                 (chat_completions_create sv "llama-3.1-70b-versatile"
                    "You are a technical writer." prompt 2048) ;;
        r <- for_chunk_in_stream (deltas stream) "" st ;;
        match r with
        | (_, st', broke) =>
            (match broke, stream_error stream with
             | false, Some msg => raise msg
             | _, _ => ret tt
             end) ;;;
            yield (Py.join LFLF (document_parts st') ++ LFLF ++ FINISHED) ;;;
            handbook_loop fuel' topic target_words st'
        end
    end
  else ret st.

(** [generate_handbook_stream(topic, target_words)] *)
Definition generate_handbook_stream (fuel : nat) (topic : string)
    (target_words : Z) : Gen W File Embedding string unit :=
  if negb (Py.truthy (Py.strip topic)) then
    yield GUIDANCE ;;; ret tt
  else
    handbook_loop fuel topic target_words (mkSynth 1 [] 0) ;;; ret tt.

(** *** PDF UPLOAD *)

(** The status texts.  Their symbols outside ASCII stand here as their
    UTF-8 bytes; the program only concatenates and returns them. *)
Definition NO_FILE : string := "❌ No file".
Definition NO_TEXT : string := "⚠️ No extractable text".

(** [upload_pdf(file)]; [None] is Python's [None]. *)
Definition upload_pdf {Y} (file : option File) : Gen W File Embedding Y (string * string) :=
  try_except
    (match file with
     | None => ret (NO_FILE, "")
     | Some f =>
         text <- extract_pdf_text f ;;
         set_PDF_TEXT text ;;;
         if negb (Py.truthy (Py.strip text)) then ret (NO_TEXT, "")
         else
           chunks <- lift (chunk_text (String.length text) text 1000 200) ;;
           set_CHUNKS chunks ;;;
           store_chunks chunks ;;;
           match chunks with
           | [] => raise "list index out of range"
           | c :: _ =>
               ret ("✅ PDF processed" ++ LF ++ "Chunks: "
                      ++ Py.str_of_int (Z.of_nat (List.length chunks)),
                    Py.slice (content c) 0 1200)
           end
     end)
    (fun e => ret ("❌ Error: " ++ e, "")).

(** *** CHAT *)

Definition ASK_TOPIC : string := "Please provide a topic for the handbook.".
Definition NOT_FOUND : string :=
  "I couldn't find relevant information in the document.".

(** [history[-1]["content"] = v] *)
Fixpoint set_last_content (h : History) (v : string) : History :=
  match h with
  | [] => []
  | [t] => [Turn.mk (Turn.role t) v]
  | t :: h' => t :: set_last_content h' v
  end.

(** [chat(message, history)].  It is a generator: the value of a
    [return] is the generator's return value, not a yielded one.  The
    list [current_history] is one object, changed in place and yielded
    again and again; the trace records its value at each yield. *)
Definition chat (fuel : nat) (message : string) (history : History)
  : Gen W File Embedding History (option History) :=
  if negb (Py.truthy (Py.strip message)) then ret (Some history)
  else
    let current_history := (history ++ [Turn.mk "user" message])%list in
    if Py.startswith (Py.lower message) "create a handbook" then
      let topic := Py.strip (Py.slice_from message 15) in
      if negb (Py.truthy topic) then
        ret (Some (current_history ++ [Turn.mk "assistant" ASK_TOPIC])%list)
      else
        let thinking_msg :=
          Turn.mk "assistant"
            ("📖 Generating handbook on **" ++ topic ++ "** ..." ++ LFLF) in
        let current_history := (current_history ++ [thinking_msg])%list in
        yield current_history ;;;
        for_in (generate_handbook_stream fuel topic 3000)
               (fun partial h =>
                  let h' := set_last_content h
                              ("📖 Handbook: **" ++ topic ++ "**" ++ LFLF
                               ++ partial) in
                  (h', [h']))
               current_history ;;;
        ret None
    else
      results <- search_supabase message 5 ;;
      match results with
      | [] =>
          let reply := NOT_FOUND in
          ret None
      | _ :: _ =>
          let reply := Py.join LFLF results in
          let current_history :=
            (current_history ++ [Turn.mk "assistant" reply])%list in
          yield current_history ;;;
          ret None
      end.

End Program.

(** ** Scripted services

    A world in which every service answers the same way on every call:
    the PDF reader delivers [pdf], the vector store [hits] and the
    completion provider [stream]. *)
Definition scripted (pdf : PdfRead) (hits : option (list string))
    (stream : Stream) : Services unit unit unit :=
  mkServices
    (fun _ _ w => (Returned tt, w))
    (fun _ _ w => (Returned hits, w))
    (fun _ _ w => (Returned tt, w))
    (fun _ _ _ _ w => (Returned stream, w))
    (fun _ w => (pdf, w)).

Definition no_pdf : PdfRead := mkPdfRead [] None.
Definition no_stream : Stream := mkStream [] None.

(** Services that all answer, except that every request to the
    embedding provider raises [msg]. *)
Definition broken_embedding (msg : string) : Services unit unit unit :=
  mkServices
    (fun _ _ w => (Raised msg, w))
    (fun _ _ w => (Returned None, w))
    (fun _ _ w => (Returned tt, w))
    (fun _ _ _ _ w => (Returned no_stream, w))
    (fun _ w => (mkPdfRead [Some "some text"] None, w)).

(** Services that all answer, except that every upsert raises [msg]. *)
Definition broken_store (pdf : PdfRead) (msg : string)
  : Services unit unit unit :=
  mkServices
    (fun _ _ w => (Returned tt, w))
    (fun _ _ w => (Returned None, w))
    (fun _ _ w => (Raised msg, w))
    (fun _ _ _ _ w => (Returned no_stream, w))
    (fun _ w => (pdf, w)).

(** The state of a freshly loaded module. *)
Definition fresh : State unit := mkState tt "" [].

(** A text of [n] one-letter words. *)
Definition words (n : nat) : string := String.concat " " (repeat "w" n).

(** The yielded values of a trace, in order. *)
Fixpoint yields {File Embedding Y} (t : list (event File Embedding Y))
  : list Y :=
  match t with
  | [] => []
  | Call _ :: t' => yields t'
  | Yield y :: t' => y :: yields t'
  end.

(** The external calls of a trace, in order. *)
Fixpoint calls {File Embedding Y} (t : list (event File Embedding Y))
  : list (call File Embedding) :=
  match t with
  | [] => []
  | Call c :: t' => c :: calls t'
  | Yield _ :: t' => calls t'
  end.

(** ** Reference quantities for the chunker *)

(** The ceiling of [a / b] for a positive [b]. *)
Definition ceil_div (a b : Z) : Z := (a + b - 1) / b.

(** The chunk count as the specification words it:
    [ceil(max(0, L - overlap) / (size - overlap))]. *)
Definition spec_chunk_count (L size overlap : Z) : Z :=
  ceil_div (Z.max 0 (L - overlap)) (size - overlap).

(** The [n] windows read from offset [start] on, numbered from [i]. *)
Fixpoint windows (text : string) (size overlap : Z) (n : nat) (start i : Z)
  : list Chunk :=
  match n with
  | O => []
  | S n' =>
      mkChunk ("chunk_" ++ Py.str_of_int i) (Py.slice text start (start + size))
      :: windows text size overlap n' (start + size - overlap) (i + 1)
  end.

(** The number of windows, for a positive step. *)
Definition window_count (text : string) (size overlap : Z) : nat :=
  Z.to_nat (ceil_div (Py.len text) (size - overlap)).

(** A text with no non-whitespace character (the empty text included). *)
Fixpoint blank (s : string) : bool :=
  match s with
  | EmptyString => true
  | String c r => Py.isspace c && blank r
  end.

(** ** CONFIG

    The start of the module: the four settings read with [os.getenv]
    ([None] when unset), the list of the missing ones, and the
    [RuntimeError] raised when the list is not empty. *)

(** [not v] for the value of [os.getenv]. *)
Definition unset (v : option string) : bool :=
  match v with
  | Some (String _ _) => false
  | _ => true
  end.

(** The list [missing] after the four tests. *)
Definition missing_vars (OPENAI_API_KEY GROQ_API_KEY SUPABASE_URL
    SUPABASE_KEY : option string) : list string :=
  let missing := [] in
  let missing :=
    if unset OPENAI_API_KEY then (missing ++ ["OPENAI_API_KEY"])%list
    else missing in
  let missing :=
    if unset GROQ_API_KEY then (missing ++ ["GROQ_API_KEY"])%list
    else missing in
  let missing :=
    if unset SUPABASE_URL then (missing ++ ["SUPABASE_URL"])%list
    else missing in
  let missing :=
    if unset SUPABASE_KEY then (missing ++ ["SUPABASE_KEY"])%list
    else missing in
  missing.

(** The configuration check run when the module is loaded. *)
Definition check_config (OPENAI_API_KEY GROQ_API_KEY SUPABASE_URL
    SUPABASE_KEY : option string) : outcome unit :=
  match missing_vars OPENAI_API_KEY GROQ_API_KEY SUPABASE_URL SUPABASE_KEY with
  | [] => Returned tt
  | missing => Raised ("❌ Missing env vars: " ++ Py.join ", " missing)
  end.

(** ** Reading traces *)

(** The rows upserted by the calls of a trace, in order. *)
Fixpoint upserts {File Embedding} (cs : list (call File Embedding))
  : list (IndexedRecord Embedding) :=
  match cs with
  | [] => []
  | TableUpsert _ r :: cs' => r :: upserts cs'
  | _ :: cs' => upserts cs'
  end.

(** The texts sent to the embedding provider by the calls of a trace. *)
Fixpoint embed_inputs {File Embedding} (cs : list (call File Embedding))
  : list string :=
  match cs with
  | [] => []
  | EmbeddingsCreate _ input :: cs' => input :: embed_inputs cs'
  | _ :: cs' => embed_inputs cs'
  end.

(** A page from which no visible text was extracted. *)
Definition page_blank (p : option string) : bool :=
  match p with
  | None => true
  | Some t => blank t
  end.

(** ** Reading the synthesis state *)

(** [len(s.split())] *)
Definition word_count (s : string) : Z :=
  Z.of_nat (List.length (Py.split s)).

(** The words of a list of sections. *)
Definition words_in (parts : list string) : Z :=
  fold_right (fun p n => word_count p + n) 0 parts.

(** A section text that is not empty and has no whitespace at either
    end. *)
Definition clean (p : string) : Prop := p <> "" /\ Py.strip p = p.

(** One pass of the [while] loop of [generate_handbook_stream]: search,
    completion request, the loop over the stream and the yield that
    follows it.  It returns the local variables after the pass. *)
Definition handbook_pass {W File Embedding : Type}
    (sv : Services W File Embedding) (topic : string) (st : Synth)
  : Gen W File Embedding string Synth :=
  results <- search_supabase sv topic 5 ;;
  let context := Py.join LFLF results in
  let prompt := handbook_prompt topic context (section st) in
  stream <-
    extern (ChatCompletionsCreate "llama-3.1-70b-versatile"
              "You are a technical writer." prompt 2048)
           (chat_completions_create sv "llama-3.1-70b-versatile"
              "You are a technical writer." prompt 2048) ;;
  r <- for_chunk_in_stream (deltas stream) "" st ;;
  match r with
  | (_, st', broke) =>
      (match broke, stream_error stream with
       | false, Some msg => raise msg
       | _, _ => ret tt
       end) ;;;
      yield (Py.join LFLF (document_parts st') ++ LFLF ++ FINISHED) ;;;
      ret st'
  end.

(** The calls the synthesis of a handbook on [topic] may make: the
    embedding of the topic, a search for 5 matches, a completion request
    to the fixed model with the fixed system message and token limit. *)
Definition synthesis_call {File Embedding : Type} (topic : string)
    (c : call File Embedding) : Prop :=
  match c with
  | EmbeddingsCreate model input =>
      model = "text-embedding-3-small" /\ input = topic
  | RpcMatchDocuments _ k => k = 5
  | ChatCompletionsCreate model system _ max_tokens =>
      model = "llama-3.1-70b-versatile"
      /\ system = "You are a technical writer." /\ max_tokens = 2048
  | _ => False
  end.

(** * Properties *)

(** ** Python primitives on examples *)

Example py_primitives :
  Py.strip "  a b  " = "a b" /\ Py.strip "   " = ""
  /\ Py.split " ab  c d " = ["ab"; "c"; "d"]
  /\ Py.slice "abcdef" (-3) (-1) = "de"
  /\ Py.slice "abcdef" 4 10 = "ef"
  /\ Py.slice_from "abcdef" 2 = "cdef"
  /\ Py.lower "Create A" = "create a"
  /\ Py.str_of_int 0 = "0" /\ Py.str_of_int 12 = "12".
Proof. repeat split; reflexivity. Qed.

(** ** Chunker *)

Lemma len_nonneg (s : string) : 0 <= Py.len s.
Proof. unfold Py.len. lia. Qed.

Lemma len_empty_iff (s : string) : Py.len s = 0 <-> s = "".
Proof.
  unfold Py.len. destruct s as [|c r]; simpl; split; intros H;
    try reflexivity; try discriminate; lia.
Qed.

Lemma ceil_div_bounds (a b : Z) :
  0 < b -> (ceil_div a b - 1) * b < a <= ceil_div a b * b.
Proof.
  intros Hb. unfold ceil_div.
  pose proof (Z.div_mod (a + b - 1) b ltac:(lia)) as E.
  pose proof (Z.mod_pos_bound (a + b - 1) b Hb) as M.
  nia.
Qed.

(** [ceil_div a b] is the least [n] with [a <= n * b]. *)
Lemma ceil_div_least (a b n : Z) :
  0 < b -> a <= n * b -> ceil_div a b <= n.
Proof.
  intros Hb Hn. pose proof (ceil_div_bounds a b Hb). nia.
Qed.

(** The loop raises on no input. *)
Lemma chunk_text_loop_no_raise fuel text size overlap :
  forall chunks start i msg,
    chunk_text_loop fuel text size overlap chunks start i <> Raised msg.
Proof.
  induction fuel as [|fuel IH]; intros chunks start i msg; simpl;
    destruct (start <? Py.len text); try discriminate.
  apply IH.
Qed.

(** With a step [size - overlap <= 0] the offset never leaves the text. *)
Lemma chunk_text_loop_stuck fuel text size overlap :
  size <= overlap -> 0 < Py.len text ->
  forall chunks start i,
    start <= 0 ->
    chunk_text_loop fuel text size overlap chunks start i = OutOfFuel.
Proof.
  intros Hd HL. induction fuel as [|fuel IH]; intros chunks start i Hs; simpl.
  - destruct (Z.ltb_spec start (Py.len text)); [reflexivity | lia].
  - destruct (Z.ltb_spec start (Py.len text)); [|lia].
    apply IH. lia.
Qed.

(** With a positive step the loop emits exactly the windows that start
    inside the text. *)
Lemma chunk_text_loop_windows text size overlap :
  overlap < size ->
  forall (n fuel : nat) chunks start i,
    (n <= fuel)%nat ->
    Py.len text <= start + Z.of_nat n * (size - overlap) ->
    (n = O \/ start + (Z.of_nat n - 1) * (size - overlap) < Py.len text) ->
    chunk_text_loop fuel text size overlap chunks start i
    = Returned (chunks ++ windows text size overlap n start i)%list.
Proof.
  intros Hd. induction n as [|n IH]; intros fuel chunks start i Hf Hstop Hin.
  - rewrite app_nil_r. simpl in Hstop.
    destruct fuel; simpl;
      destruct (Z.ltb_spec start (Py.len text)); try reflexivity; lia.
  - destruct Hin as [Hin|Hin]; [discriminate|].
    destruct fuel as [|fuel]; [lia|].
    simpl chunk_text_loop.
    destruct (Z.ltb_spec start (Py.len text)) as [_|Hge]; [|nia].
    rewrite (IH fuel); try lia.
    simpl windows. rewrite <- app_assoc. reflexivity.
Qed.

Lemma windows_length text size overlap n :
  forall start i, List.length (windows text size overlap n start i) = n.
Proof.
  induction n as [|n IH]; intros start i; simpl; [|rewrite IH]; reflexivity.
Qed.

Lemma windows_nth text size overlap n :
  forall (k : nat) start i,
    (k < n)%nat ->
    nth_error (windows text size overlap n start i) k
    = Some (mkChunk ("chunk_" ++ Py.str_of_int (i + Z.of_nat k))
              (Py.slice text (start + Z.of_nat k * (size - overlap))
                 (start + Z.of_nat k * (size - overlap) + size))).
Proof.
  induction n as [|n IH]; intros k start i Hk; [lia|].
  destruct k as [|k]; cbn [windows nth_error].
  - replace (i + Z.of_nat 0) with i by lia.
    replace (start + Z.of_nat 0 * (size - overlap)) with start by lia.
    reflexivity.
  - rewrite IH by lia.
    replace (i + 1 + Z.of_nat k) with (i + Z.of_nat (S k)) by lia.
    replace (start + size - overlap + Z.of_nat k * (size - overlap))
      with (start + Z.of_nat (S k) * (size - overlap)) by lia.
    reflexivity.
Qed.

Lemma window_count_le_length text size overlap :
  overlap < size -> (window_count text size overlap <= String.length text)%nat.
Proof.
  intros Hd. unfold window_count.
  pose proof (ceil_div_least (Py.len text) (size - overlap) (Py.len text)
                ltac:(lia)) as H.
  pose proof (len_nonneg text). unfold Py.len in *.
  assert (Z.of_nat (String.length text)
          <= Z.of_nat (String.length text) * (size - overlap)) by nia.
  lia.
Qed.

Lemma window_count_nonneg text size overlap :
  overlap < size -> 0 <= ceil_div (Py.len text) (size - overlap).
Proof.
  intros Hd.
  pose proof (ceil_div_bounds (Py.len text) (size - overlap) ltac:(lia)).
  pose proof (len_nonneg text). nia.
Qed.

(** [chunk_text] returns for every positive step, given at least
    [len(text)] iterations. *)
Lemma chunk_text_returns text size overlap fuel :
  overlap < size -> (String.length text <= fuel)%nat ->
  chunk_text fuel text size overlap
  = Returned (windows text size overlap (window_count text size overlap) 0 0).
Proof.
  intros Hd Hf. unfold chunk_text.
  pose proof (window_count_le_length text size overlap Hd) as Hn.
  pose proof (window_count_nonneg text size overlap Hd) as H0.
  pose proof (ceil_div_bounds (Py.len text) (size - overlap) ltac:(lia)) as B.
  rewrite (chunk_text_loop_windows text size overlap Hd
             (window_count text size overlap)); try reflexivity; try lia.
  - unfold window_count. rewrite Z2Nat.id by assumption. lia.
  - unfold window_count.
    destruct (Z.eq_dec (ceil_div (Py.len text) (size - overlap)) 0) as [E|E].
    + left. rewrite E. reflexivity.
    + right. rewrite Z2Nat.id by assumption. lia.
Qed.

(** ** Claims about [chunk_text] *)

(** C7: [chunk_text("abcdefghij", size=4, overlap=1)] returns the chunks
    "abcd", "defg", "ghij", "j" with ids chunk_0 .. chunk_3; and for every
    text and valid (size, overlap) the call returns a list whose k-th
    chunk has id "chunk_<k>" and content
    [text[k*(size-overlap) : k*(size-overlap)+size]], every emitted
    offset lying inside the text and the first offset not emitted being
    at or past its end. *)
Theorem chunk_text_windows_spec (text : string) (size overlap : Z)
    (fuel : nat) :
  0 < size -> 0 <= overlap < size -> (String.length text <= fuel)%nat ->
  chunk_text 10 "abcdefghij" 4 1
  = Returned [mkChunk "chunk_0" "abcd"; mkChunk "chunk_1" "defg";
              mkChunk "chunk_2" "ghij"; mkChunk "chunk_3" "j"]
  /\ exists chunks,
      chunk_text fuel text size overlap = Returned chunks
      /\ (forall k : nat,
            (k < List.length chunks)%nat ->
            Z.of_nat k * (size - overlap) < Py.len text
            /\ nth_error chunks k
               = Some (mkChunk ("chunk_" ++ Py.str_of_int (Z.of_nat k))
                         (Py.slice text (Z.of_nat k * (size - overlap))
                            (Z.of_nat k * (size - overlap) + size))))
      /\ Py.len text <= Z.of_nat (List.length chunks) * (size - overlap).
Proof.
  intros Hsize Hov Hfuel. split; [reflexivity|].
  assert (Hd : overlap < size) by lia.
  exists (windows text size overlap (window_count text size overlap) 0 0).
  pose proof (window_count_nonneg text size overlap Hd) as H0.
  pose proof (ceil_div_bounds (Py.len text) (size - overlap) ltac:(lia)) as B.
  rewrite windows_length.
  split; [apply chunk_text_returns; assumption|].
  split.
  - intros k Hk. split.
    + unfold window_count in Hk. nia.
    + rewrite windows_nth by assumption. reflexivity.
  - unfold window_count. rewrite Z2Nat.id by assumption. lia.
Qed.

Lemma chunk_text_windows_spec_witness :
  exists chunks,
    chunk_text 11 "hello world" 5 2 = Returned chunks
    /\ Py.len "hello world" <= Z.of_nat (List.length chunks) * (5 - 2).
Proof.
  destruct (chunk_text_windows_spec "hello world" 5 2 11) as (_ & l & E & _ & B);
    [lia | lia | simpl; lia |].
  exists l. split; assumption.
Defined.

(** C5, as the code has it: for every text of length L and every valid
    (size, overlap), [chunk_text] returns [ceil(L / (size - overlap))]
    chunks, at least one whenever L > 0, and none for the empty text. *)
Theorem chunk_text_count (text : string) (size overlap : Z) (fuel : nat) :
  0 < size -> 0 <= overlap < size -> (String.length text <= fuel)%nat ->
  exists chunks,
    chunk_text fuel text size overlap = Returned chunks
    /\ Z.of_nat (List.length chunks) = ceil_div (Py.len text) (size - overlap)
    /\ (0 < Py.len text -> (1 <= List.length chunks)%nat)
    /\ (text = "" -> chunks = []).
Proof.
  intros Hsize Hov Hfuel.
  assert (Hd : overlap < size) by lia.
  exists (windows text size overlap (window_count text size overlap) 0 0).
  pose proof (window_count_nonneg text size overlap Hd) as H0.
  pose proof (ceil_div_bounds (Py.len text) (size - overlap) ltac:(lia)) as B.
  rewrite windows_length.
  split; [apply chunk_text_returns; assumption|].
  unfold window_count. rewrite Z2Nat.id by assumption.
  split; [reflexivity|]. split.
  - intros HL. nia.
  - intros ->. change (Py.len "") with 0 in *.
    assert (ceil_div 0 (size - overlap) = 0) as -> by nia.
    reflexivity.
Qed.

Lemma chunk_text_count_witness :
  exists chunks,
    chunk_text 10 "abcdefghij" 4 1 = Returned chunks
    /\ Z.of_nat (List.length chunks) = ceil_div 10 3.
Proof.
  destruct (chunk_text_count "abcdefghij" 4 1 10) as (l & E & C & _);
    [lia | lia | simpl; lia |].
  exists l. split; assumption.
Defined.

(** C5 as stated fails: on a text of length 10 with size 4 and overlap 1
    the code returns 4 chunks, the stated formula gives 3. *)
Lemma chunk_count_formula_refuted :
  ~ (forall (text : string) (size overlap : Z) (fuel : nat) chunks,
       0 < size -> 0 <= overlap < size ->
       chunk_text fuel text size overlap = Returned chunks ->
       Z.of_nat (List.length chunks)
       = spec_chunk_count (Py.len text) size overlap).
Proof.
  intros H.
  specialize (H "abcdefghij" 4 1 10%nat _ ltac:(lia) ltac:(lia) eq_refl).
  vm_compute in H. discriminate H.
Qed.

(** C4, as the code has it: [chunk_text] validates nothing.  When
    [overlap >= size] it raises on no input: it returns the empty list
    for the empty text, and for every other text the loop never ends. *)
Theorem chunk_text_bad_overlap (text : string) (size overlap : Z) :
  size <= overlap ->
  (forall fuel msg, chunk_text fuel text size overlap <> Raised msg)
  /\ (text = "" -> forall fuel, chunk_text fuel text size overlap = Returned [])
  /\ (text <> "" ->
      forall fuel, chunk_text fuel text size overlap = OutOfFuel).
Proof.
  intros Hd. split; [|split].
  - intros fuel msg. apply chunk_text_loop_no_raise.
  - intros -> fuel. destruct fuel; reflexivity.
  - intros Hne fuel. apply chunk_text_loop_stuck; try lia.
    pose proof (len_nonneg text). pose proof (len_empty_iff text).
    destruct (Z.eq_dec (Py.len text) 0); [tauto | lia].
Qed.

Lemma chunk_text_bad_overlap_witness :
  2 <= 2 /\ chunk_text 1000 "abc" 2 2 = OutOfFuel.
Proof.
  split; [lia|].
  destruct (chunk_text_bad_overlap "abc" 2 2) as (_ & _ & H); [lia|].
  apply H. discriminate.
Defined.

(** C4 as stated fails: with size = overlap = 1 the empty text is
    accepted and an empty list returned. *)
Lemma chunk_text_rejection_refuted :
  ~ (forall (text : string) (size overlap : Z),
       size <= overlap ->
       exists fuel msg, chunk_text fuel text size overlap = Raised msg).
Proof.
  intros H. destruct (H "" 1 1 ltac:(lia)) as (fuel & msg & E).
  destruct fuel; discriminate E.
Qed.

(** [chunk_text] returns on exactly the inputs with an empty text or a
    positive step. *)
Lemma chunk_text_returns_iff (text : string) (size overlap : Z) :
  (exists fuel chunks, chunk_text fuel text size overlap = Returned chunks)
  <-> (text = "" \/ overlap < size).
Proof.
  split.
  - intros (fuel & chunks & E).
    destruct (Z.lt_ge_cases overlap size) as [Hlt|Hge]; [right; assumption|].
    left. destruct text as [|c r]; [reflexivity|].
    unfold chunk_text in E.
    rewrite chunk_text_loop_stuck in E; [discriminate E | lia | | lia].
    unfold Py.len. simpl String.length. lia.
  - intros [->|Hd].
    + exists O, []. reflexivity.
    + exists (String.length text). eexists.
      apply chunk_text_returns; [assumption | lia].
Qed.

(** ** Blank texts and [strip] *)

Lemma lstrip_blank (s : string) : blank s = true -> Py.lstrip s = "".
Proof.
  induction s as [|c r IH]; simpl; [reflexivity|].
  intros H. apply andb_true_iff in H as [Hc Hr].
  rewrite Hc. apply IH, Hr.
Qed.

Lemma blank_lstrip (s : string) : blank (Py.lstrip s) = blank s.
Proof.
  induction s as [|c r IH]; simpl; [reflexivity|].
  destruct (Py.isspace c) eqn:Hc; simpl.
  - exact IH.
  - rewrite Hc. reflexivity.
Qed.

Lemma rstrip_empty (s : string) : Py.rstrip s = "" -> blank s = true.
Proof.
  induction s as [|c r IH]; simpl; [reflexivity|].
  destruct (Py.rstrip r) as [|c' r'] eqn:Er.
  - destruct (Py.isspace c); [intros _; apply IH; reflexivity | discriminate].
  - discriminate.
Qed.

(** [not s.strip()] holds exactly for the blank texts. *)
Lemma strip_blank (s : string) : Py.strip s = "" <-> blank s = true.
Proof.
  unfold Py.strip. split.
  - intros H. rewrite <- blank_lstrip. apply rstrip_empty, H.
  - intros H. rewrite (lstrip_blank s H). reflexivity.
Qed.

Lemma truthy_strip (s : string) :
  Py.truthy (Py.strip s) = negb (blank s).
Proof.
  destruct (blank s) eqn:B.
  - apply strip_blank in B. rewrite B. reflexivity.
  - destruct (Py.strip s) eqn:E; [|reflexivity].
    apply strip_blank in E. congruence.
Qed.

(** ** Claims about [generate_handbook_stream] *)

Section Synthesis.

Context {W File Embedding : Type}.
Variable sv : Services W File Embedding.

(** C8: for a topic that is empty or whitespace-only,
    [generate_handbook_stream] yields the guidance message and nothing
    else, makes no external call, leaves the state as it was and
    returns, whatever the target and the iteration budget. *)
Theorem blank_topic_guidance_only (fuel : nat) (topic : string)
    (target_words : Z) (s : State W) :
  blank topic = true ->
  generate_handbook_stream sv fuel topic target_words s
  = ([Yield GUIDANCE], s, Returned tt).
Proof.
  intros B. unfold generate_handbook_stream.
  rewrite truthy_strip, B. reflexivity.
Qed.

End Synthesis.

Lemma blank_topic_guidance_only_witness :
  generate_handbook_stream
    (scripted no_pdf (Some ["ctx"]) (mkStream [Some "text"] None))
    7 "   " 3000 fresh
  = ([Yield GUIDANCE], fresh, Returned tt).
Proof.
  apply (blank_topic_guidance_only
           (scripted no_pdf (Some ["ctx"]) (mkStream [Some "text"] None))
           7 "   " 3000 fresh).
  reflexivity.
Defined.

(** ** Claims about [upload_pdf] *)

Section Ingestion.

Context {W File Embedding Y : Type}.
Variable sv : Services W File Embedding.

(** C9: when the text extracted from the file has no non-whitespace
    character, [upload_pdf] returns the no-extractable-text status with
    an empty preview; the only external call is the reading of the PDF
    (no embedding, no upsert), and [CHUNKS] keeps its value. *)
Theorem blank_pdf_not_ingested (f : File) (s : State W) :
  blank (pages_text "" (pages (fst (pdf_open sv f (world s))))) = true ->
  upload_pdf (Y:=Y) sv (Some f) s
  = ([Call (PdfOpen f)],
     mkState (snd (pdf_open sv f (world s)))
       (pages_text "" (pages (fst (pdf_open sv f (world s)))))
       (CHUNKS s),
     Returned (NO_TEXT, "")).
Proof.
  intros B.
  unfold upload_pdf, try_except, extract_pdf_text, bind, extern, set_PDF_TEXT,
    ret.
  destruct (pdf_open sv f (world s)) as [r w'] eqn:E. simpl in *.
  rewrite truthy_strip, B. reflexivity.
Qed.

(** C10: with no file, [upload_pdf] returns the no-file status and an
    empty preview, makes no external call and leaves the world,
    [PDF_TEXT] and [CHUNKS] as they were. *)
Theorem no_file_no_effect (s : State W) :
  upload_pdf (Y:=Y) sv None s = ([], s, Returned (NO_FILE, "")).
Proof. reflexivity. Qed.

End Ingestion.

Lemma blank_pdf_not_ingested_witness :
  upload_pdf (Y:=unit)
    (scripted (mkPdfRead [Some "  "; None; Some ""] None) None no_stream)
    (Some tt) (mkState tt "old text" [mkChunk "chunk_0" "old text"])
  = ([Call (PdfOpen tt)],
     mkState tt ("  " ++ LF) [mkChunk "chunk_0" "old text"],
     Returned (NO_TEXT, "")).
Proof.
  apply (blank_pdf_not_ingested (Y:=unit)
           (scripted (mkPdfRead [Some "  "; None; Some ""] None) None no_stream)
           tt (mkState tt "old text" [mkChunk "chunk_0" "old text"])).
  reflexivity.
Defined.

(** ** Runs of the synthesis loop *)

(** C1 at a failing input: the provider streams 25 one-letter tokens per
    request and the target is 26 words.  The first pass of the [while]
    loop finalizes 25 sections and leaves the [for] loop by [break]; the
    [while] loop goes on, and the second pass finalizes a 26th section,
    which the last yielded document contains. *)
Theorem synthesis_finalizes_26_sections :
  let sv := scripted no_pdf None (mkStream (repeat (Some "a") 25) None) in
  exists t st,
    handbook_loop sv 2 "x" 26 (mkSynth 1 [] 0) fresh = (t, fresh, Returned st)
    /\ List.length (document_parts st) = 26%nat
    /\ generate_handbook_stream sv 2 "x" 26 fresh = (t, fresh, Returned tt)
    /\ last (yields t) ""
       = Py.join LFLF (document_parts st) ++ LFLF ++ FINISHED.
Proof.
  cbv zeta. eexists. eexists.
  split; [vm_compute; reflexivity|].
  repeat split; vm_compute; reflexivity.
Qed.

(** C6 at a failing input: the provider streams one one-letter token
    per request and the target is 2 words.  The completion marker is
    yielded at the end of each of the two passes of the [while] loop,
    the first time before the second section exists.  With a target of
    0 the loop body never runs and no marker is yielded at all. *)
Theorem completion_marker_per_pass :
  let sv := scripted no_pdf None (mkStream [Some "a"] None) in
  (exists t,
     generate_handbook_stream sv 2 "x" 2 fresh = (t, fresh, Returned tt)
     /\ yields t
        = ["a";
           "a" ++ LFLF ++ FINISHED;
           "a" ++ LFLF ++ "a";
           "a" ++ LFLF ++ "a" ++ LFLF ++ FINISHED])
  /\ generate_handbook_stream sv 2 "x" 0 fresh = ([], fresh, Returned tt).
Proof.
  cbv zeta. split; [|reflexivity].
  eexists. split; vm_compute; reflexivity.
Qed.

(** ** Runs of [chat] *)

(** C2 at its own example: for "create a handbook on   " the slice
    [message[15:]] is "ok on   ", the topic is "ok on", and [chat]
    yields the placeholder turn and runs the synthesis on that topic
    (here to its end: the provider streams 3000 words at once).  No
    turn asking for a topic is produced. *)
Theorem blank_topic_message_runs_synthesis :
  let sv := scripted no_pdf None (mkStream [Some (words 3000)] None) in
  let message := "create a handbook on   " in
  let asked := Turn.mk "user" message in
  Py.strip (Py.slice_from message 15) = "ok on"
  /\ exists t,
      chat sv 1 message [] fresh = (t, fresh, Returned None)
      /\ calls t
         = [EmbeddingsCreate "text-embedding-3-small" "ok on";
            RpcMatchDocuments tt 5;
            ChatCompletionsCreate "llama-3.1-70b-versatile"
              "You are a technical writer."
              (handbook_prompt "ok on" "" 1) 2048]
      /\ yields t
         = [[asked;
             Turn.mk "assistant"
               ("📖 Generating handbook on **ok on** ..." ++ LFLF)];
            [asked;
             Turn.mk "assistant"
               ("📖 Handbook: **ok on**" ++ LFLF ++ words 3000)];
            [asked;
             Turn.mk "assistant"
               ("📖 Handbook: **ok on**" ++ LFLF ++ words 3000 ++ LFLF
                ++ FINISHED)]].
Proof.
  cbv zeta. split; [reflexivity|].
  eexists. split; [vm_compute; reflexivity|].
  split; vm_compute; reflexivity.
Qed.

(** C3 at a failing input: the message "hello" is neither blank nor a
    handbook request and the store has no match.  [chat] makes the two
    calls of the search and ends without yielding any history: the
    not-found reply is assigned and never appended. *)
Theorem qa_without_results_yields_nothing :
  chat (scripted no_pdf None no_stream) 0 "hello" [] fresh
  = ([Call (EmbeddingsCreate "text-embedding-3-small" "hello");
      Call (RpcMatchDocuments tt 5)],
     fresh, Returned None)
  /\ chat (scripted no_pdf (Some []) no_stream) 0 "hello" [] fresh
     = ([Call (EmbeddingsCreate "text-embedding-3-small" "hello");
         Call (RpcMatchDocuments tt 5)],
        fresh, Returned None).
Proof. split; reflexivity. Qed.

(** ** General facts behind the runs above *)

(** The chunking done by [upload_pdf] always returns: the iteration
    budget [len(text)] is enough for size 1000 and overlap 200. *)
Lemma upload_chunking_returns (text : string) :
  chunk_text (String.length text) text 1000 200
  = Returned (windows text 1000 200 (window_count text 1000 200) 0 0).
Proof. apply chunk_text_returns; lia. Qed.

(** A character that lowers to a letter of the trigger is no space. *)
Lemma lower_o_not_space (c : ascii) :
  Py.lower_char c = "o"%char -> Py.isspace c = false.
Proof.
  destruct c as [[] [] [] [] [] [] [] []]; vm_compute; intros H;
    try reflexivity; discriminate H.
Qed.

(** A text that starts with a non-space character is not blank after
    [strip]. *)
Lemma strip_nonspace_head (c : ascii) (r : string) :
  Py.isspace c = false -> Py.truthy (Py.strip (String c r)) = true.
Proof.
  intros H. rewrite truthy_strip. simpl. rewrite H. reflexivity.
Qed.

(** Whenever the handbook trigger matches, [message[15:].strip()] is
    not empty: the slice starts inside the trigger, at its letter "o".
    The branch of [chat] that asks for a topic is never taken. *)
Lemma trigger_topic_never_blank (message : string) :
  Py.startswith (Py.lower message) "create a handbook" = true ->
  Py.truthy (Py.strip (Py.slice_from message 15)) = true.
Proof.
  unfold Py.startswith. intros H.
  do 17 (destruct message as [|? message];
         [cbn [Py.lower String.prefix] in H;
          repeat match type of H with
                 | (if ?d then _ else _) = true => destruct d
                 end;
          discriminate H|]).
  cbn [Py.lower String.prefix] in H.
  repeat match type of H with
         | (if ?d then _ else _) = true =>
             destruct d as [?E|_]; [|discriminate H]
         end.
  unfold Py.slice_from, Py.clip, Py.len. cbn [String.length].
  set (n := String.length message).
  change (15 <? 0) with false. cbv iota.
  rewrite Z.min_l by lia.
  change (Z.to_nat 15) with 15%nat.
  match goal with
  | |- context [Z.to_nat (?e - 15)] =>
      replace (Z.to_nat (e - 15)) with (S (S n)) by lia
  end.
  cbn [String.substring].
  apply strip_nonspace_head, lower_o_not_space. congruence.
Qed.

(** Lowering a character does not change whether it is a space. *)
Lemma isspace_lower_char (c : ascii) :
  Py.isspace (Py.lower_char c) = Py.isspace c.
Proof. destruct c as [[] [] [] [] [] [] [] []]; reflexivity. Qed.

(** A message that matches the trigger is not blank. *)
Lemma trigger_message_not_blank (message : string) :
  Py.startswith (Py.lower message) "create a handbook" = true ->
  blank message = false.
Proof.
  unfold Py.startswith. intros H.
  destruct message as [|c r]; [discriminate H|].
  cbn [Py.lower String.prefix] in H.
  destruct (ascii_dec "c" (Py.lower_char c)) as [E|_]; [|discriminate H].
  simpl. rewrite <- isspace_lower_char, <- E. reflexivity.
Qed.

Section Routing.

Context {W File Embedding : Type}.
Variable sv : Services W File Embedding.

(** A search logs calls only. *)
Lemma search_supabase_no_yield {Y} (query : string) (k : Z) (s : State W) :
  yields (fst (fst (search_supabase (Y:=Y) sv query k s))) = [].
Proof.
  unfold search_supabase, embed, bind, extern, ret.
  destruct (embeddings_create sv _ query (world s)) as [[e| |] w];
    try reflexivity.
  cbn [world]. 
  destruct (rpc_match_documents sv e k w) as [[d| |] w']; reflexivity.
Qed.

(** In question mode, a search without results ends [chat] with no
    history yielded, for every message, history and service. *)
Lemma chat_qa_empty_search (fuel : nat) (message : string)
    (history : History) (s s' : State W)
    (t : list (event File Embedding History)) :
  blank message = false ->
  Py.startswith (Py.lower message) "create a handbook" = false ->
  search_supabase sv message 5 s = (t, s', Returned []) ->
  chat sv fuel message history s = (t, s', Returned None)
  /\ yields t = [].
Proof.
  intros Hb Ht Hs. unfold History in *. split.
  - unfold chat. rewrite truthy_strip, Hb, Ht. cbn [negb].
    unfold bind at 1. cbv beta. rewrite Hs. cbn. rewrite app_nil_r.
    reflexivity.
  - pose proof (search_supabase_no_yield (Y:=list Turn.t) message 5 s) as H.
    rewrite Hs in H. exact H.
Qed.

(** In handbook mode [chat] always yields the placeholder turn first and
    never returns a history: the turn asking for a topic is produced for
    no message. *)
Lemma chat_trigger_always_synthesizes (fuel : nat) (message : string)
    (history : History) (s : State W) :
  Py.startswith (Py.lower message) "create a handbook" = true ->
  let topic := Py.strip (Py.slice_from message 15) in
  exists t s',
    chat sv fuel message history s
    = (Yield (history
              ++ [Turn.mk "user" message;
                  Turn.mk "assistant"
                    ("📖 Generating handbook on **" ++ topic ++ "** ..."
                     ++ LFLF)])%list :: t,
       s', snd (chat sv fuel message history s))
    /\ forall h, snd (chat sv fuel message history s) <> Returned (Some h).
Proof.
  intros Ht topic. unfold chat.
  rewrite truthy_strip, (trigger_message_not_blank message Ht), Ht.
  rewrite (trigger_topic_never_blank message Ht). cbn [negb].
  fold topic. rewrite <- app_assoc. cbn [app].
  unfold bind, yield, ret.
  match goal with
  | |- context [for_in ?g ?b ?l s] => destruct (for_in g b l s) as [[t s'] o]
  end.
  destruct o; cbn; do 2 eexists; (split; [reflexivity | discriminate]).
Qed.

End Routing.

(** ** More runs of the synthesis loop *)

(** With the target of 3000 words that [chat] passes and the same
    provider (25 one-letter tokens per request), the document yielded at
    the end of the second pass already has 26 sections, and the loop is
    still running. *)
Lemma synthesis_default_target_26_sections :
  let sv := scripted no_pdf None (mkStream (repeat (Some "a") 25) None) in
  let parts :=
    (map (fun k => String.concat "" (repeat "a" k)) (seq 1 25) ++ ["a"])%list in
  List.length parts = 26%nat
  /\ snd (generate_handbook_stream sv 2 "x" 3000 fresh) = OutOfFuel
  /\ last (yields (fst (fst (generate_handbook_stream sv 2 "x" 3000 fresh))))
          ""
     = Py.join LFLF parts ++ LFLF ++ FINISHED.
Proof. cbv zeta. repeat split; vm_compute; reflexivity. Qed.

(** One pass of the [while] loop. *)
Lemma handbook_loop_step {W File Embedding : Type}
    (sv : Services W File Embedding) (fuel : nat) (topic : string)
    (target_words : Z) (st : Synth) :
  handbook_loop sv (S fuel) topic target_words st
  = if total_words st <? target_words then
      results <- search_supabase sv topic 5 ;;
      stream <-
        extern (ChatCompletionsCreate "llama-3.1-70b-versatile"
                  "You are a technical writer."
                  (handbook_prompt topic (Py.join LFLF results) (section st))
                  2048)
               (chat_completions_create sv "llama-3.1-70b-versatile"
                  "You are a technical writer."
                  (handbook_prompt topic (Py.join LFLF results) (section st))
                  2048) ;;
      r <- for_chunk_in_stream (deltas stream) "" st ;;
      match r with
      | (_, st', broke) =>
          (match broke, stream_error stream with
           | false, Some msg => raise msg
           | _, _ => ret tt
           end) ;;;
          yield (Py.join LFLF (document_parts st') ++ LFLF ++ FINISHED) ;;;
          handbook_loop sv fuel topic target_words st'
      end
    else ret st.
Proof. reflexivity. Qed.

(** The outcome of a sequence whose first part returns. *)
Lemma snd_bind_returned {W File Embedding Y A B : Type}
    (m : Gen W File Embedding Y A) (k : A -> Gen W File Embedding Y B)
    (s s1 : State W) (t1 : list (event File Embedding Y)) (a : A) :
  m s = (t1, s1, Returned a) -> snd (bind m k s) = snd (k a s1).
Proof.
  intros E. unfold bind. rewrite E.
  destruct (k a s1) as [[t2 s2] o]. reflexivity.
Qed.

(** A provider that streams nothing keeps the loop running for ever:
    no section is finalized, the word count stays 0 and the section
    counter stays 1. *)
Lemma synthesis_silent_provider_never_ends (fuel : nat) :
  snd (handbook_loop (scripted no_pdf None no_stream) fuel "x" 3000
         (mkSynth 1 [] 0) fresh)
  = OutOfFuel.
Proof.
  induction fuel as [|fuel IH]; [reflexivity|].
  rewrite handbook_loop_step. cbn [total_words].
  change (0 <? 3000) with true. cbv iota.
  do 5 (erewrite snd_bind_returned by reflexivity; cbv beta iota).
  exact IH.
Qed.

(** * Further properties *)

(** ** Substrings and slices *)

Lemma substring_empty (n m : nat) : String.substring n m "" = "".
Proof. destruct n, m; reflexivity. Qed.

Lemma substring_beyond (s : string) :
  forall n m, (String.length s <= n)%nat -> String.substring n m s = "".
Proof.
  induction s as [|c r IH]; intros n m H; [apply substring_empty|].
  destruct n as [|n]; simpl in H; [lia|]. simpl. apply IH. lia.
Qed.



Lemma substring_prefix_of_substring (s : string) :
  forall n m a,
    String.substring 0 a (String.substring n m s)
    = String.substring n (Nat.min a m) s.
Proof.
  induction s as [|c r IH]; intros n m a.
  - rewrite !substring_empty. reflexivity.
  - destruct n as [|n].
    + destruct m as [|m]; [rewrite Nat.min_0_r; destruct a; reflexivity|].
      destruct a as [|a]; [reflexivity|].
      simpl. rewrite (IH O m a). reflexivity.
    + simpl. apply IH.
Qed.


Lemma substring_clipped (s : string) :
  forall n m,
    String.substring n m s
    = String.substring n (Nat.min m (String.length s - n)) s.
Proof.
  induction s as [|c r IH]; intros n m.
  - rewrite !substring_empty. reflexivity.
  - destruct n as [|n].
    + destruct m as [|m]; [reflexivity|].
      simpl. rewrite (IH O m). rewrite Nat.sub_0_r. reflexivity.
    + simpl. apply IH.
Qed.

(** A slice with bounds [0 <= a <= b] is the substring at [a] of length
    [b - a]; the clipping is what [substring] does at the end of the
    text. *)
Lemma slice_substring (s : string) (a b : Z) :
  0 <= a <= b ->
  Py.slice s a b = String.substring (Z.to_nat a) (Z.to_nat (b - a)) s.
Proof.
  intros H. unfold Py.slice, Py.clip, Py.len.
  destruct (Z.ltb_spec a 0); [lia|]. destruct (Z.ltb_spec b 0); [lia|].
  set (L := String.length s).
  destruct (Z.le_gt_cases a (Z.of_nat L)) as [Ha|Ha].
  - rewrite (Z.min_l a) by lia.
    rewrite (substring_clipped s (Z.to_nat a) (Z.to_nat (b - a))).
    f_equal. fold L. lia.
  - rewrite (Z.min_r a), (Z.min_r b) by lia.
    rewrite !substring_beyond; fold L; try reflexivity; lia.
Qed.


(** ** More about the chunker *)














(** ** Startup configuration *)

(** X4: the configuration check passes exactly when each of the four
    settings has a non-empty value; otherwise it raises.  A name is in
    the list of missing settings exactly when it is one of the four and
    its value is unset or empty. *)
Theorem check_config_iff (a b c d : option string) :
  (check_config a b c d = Returned tt
   <-> unset a = false /\ unset b = false /\ unset c = false
       /\ unset d = false)
  /\ (forall name,
        In name (missing_vars a b c d)
        <-> (name = "OPENAI_API_KEY" /\ unset a = true)
            \/ (name = "GROQ_API_KEY" /\ unset b = true)
            \/ (name = "SUPABASE_URL" /\ unset c = true)
            \/ (name = "SUPABASE_KEY" /\ unset d = true))
  /\ (check_config a b c d <> Returned tt ->
      check_config a b c d
      = Raised ("❌ Missing env vars: "
                ++ Py.join ", " (missing_vars a b c d))).
Proof.
  unfold check_config, missing_vars.
  destruct (unset a), (unset b), (unset c), (unset d); cbn [app];
    (split; [split; [intros H; try discriminate H; repeat split; reflexivity
                    | intros (A & B & C & D);
                      try discriminate; reflexivity]
            | split;
              [intros name; cbn [In]; split;
               [intros H; repeat destruct H as [H|H]; subst;
                try contradiction; tauto
               | intros [[-> H]|[[-> H]|[[-> H]|[-> H]]]];
                 try discriminate H; tauto]
              | intros H; try reflexivity; exfalso; apply H; reflexivity]]).
Qed.

(** ** Extraction *)

Lemma blank_append (a b : string) : blank (a ++ b) = blank a && blank b.
Proof.
  induction a as [|c r IH]; simpl; [reflexivity|].
  rewrite IH. apply andb_assoc.
Qed.

Lemma pages_text_blank (ps : list (option string)) :
  forall text,
    blank (pages_text text ps) = blank text && forallb page_blank ps.
Proof.
  induction ps as [|p ps IH]; intros text.
  - simpl. rewrite andb_true_r. reflexivity.
  - destruct p as [[|c r]|]; cbn [pages_text Py.truthy forallb page_blank];
      rewrite IH; try reflexivity.
    rewrite !blank_append. change (blank LF) with true.
    rewrite andb_true_r. rewrite !andb_assoc. reflexivity.
Qed.

Section MoreIngestion.

Context {W File Embedding Y : Type}.
Variable sv : Services W File Embedding.

(** X5: [extract_pdf_text] makes one call, the opening of the file, and
    never raises; the text it returns is blank exactly when every page
    read gave no text or only whitespace. *)
Theorem extract_pdf_text_blank_iff (f : File) (s : State W) :
  exists text,
    extract_pdf_text (Y:=Y) sv f s
    = ([Call (PdfOpen f)],
       mkState (snd (pdf_open sv f (world s))) (PDF_TEXT s) (CHUNKS s),
       Returned text)
    /\ blank text
       = forallb page_blank (pages (fst (pdf_open sv f (world s)))).
Proof.
  unfold extract_pdf_text, bind, extern, ret.
  destruct (pdf_open sv f (world s)) as [r w]. cbn.
  eexists. split; [reflexivity|]. apply pages_text_blank.
Qed.

(** One chunk of [store_chunks]: the embedding call, then the upsert,
    then the rest. *)
Lemma store_chunks_cons (c : Chunk) (rest : list Chunk) (s : State W) :
  store_chunks (Y:=Y) sv (c :: rest) s
  = match embeddings_create sv "text-embedding-3-small" (content c)
            (world s) with
    | (Returned e, w1) =>
        let record := mkRecord (id c) (content c) e [("source", "pdf")] in
        match table_upsert sv "documents" record w1 with
        | (Returned _, w2) =>
            match store_chunks (Y:=Y) sv rest
                    (mkState w2 (PDF_TEXT s) (CHUNKS s)) with
            | (t, s', o) =>
                (Call (EmbeddingsCreate "text-embedding-3-small" (content c))
                 :: Call (TableUpsert "documents" record) :: t, s', o)
            end
        | (Raised msg, w2) =>
            ([Call (EmbeddingsCreate "text-embedding-3-small" (content c));
              Call (TableUpsert "documents" record)],
             mkState w2 (PDF_TEXT s) (CHUNKS s), Raised msg)
        | (OutOfFuel, w2) =>
            ([Call (EmbeddingsCreate "text-embedding-3-small" (content c));
              Call (TableUpsert "documents" record)],
             mkState w2 (PDF_TEXT s) (CHUNKS s), OutOfFuel)
        end
    | (Raised msg, w1) =>
        ([Call (EmbeddingsCreate "text-embedding-3-small" (content c))],
         mkState w1 (PDF_TEXT s) (CHUNKS s), Raised msg)
    | (OutOfFuel, w1) =>
        ([Call (EmbeddingsCreate "text-embedding-3-small" (content c))],
         mkState w1 (PDF_TEXT s) (CHUNKS s), OutOfFuel)
    end.
Proof.
  cbn [store_chunks]. unfold bind, embed, extern.
  destruct (embeddings_create sv _ (content c) (world s)) as [[e|msg|] w1];
    try reflexivity.
  cbn [world PDF_TEXT CHUNKS].
  destruct (table_upsert sv "documents" _ w1) as [[u|msg|] w2];
    try reflexivity.
  cbn [world PDF_TEXT CHUNKS app].
  destruct (store_chunks sv rest _) as [[t s'] o]. reflexivity.
Qed.

(** [store_chunks] yields nothing and leaves the globals alone. *)
Lemma store_chunks_globals (chunks : list Chunk) :
  forall (s s' : State W) t o,
    store_chunks (Y:=Y) sv chunks s = (t, s', o) ->
    yields t = [] /\ PDF_TEXT s' = PDF_TEXT s /\ CHUNKS s' = CHUNKS s.
Proof.
  induction chunks as [|c rest IH]; intros s s' t o E.
  - injection E as <- <- <-. repeat split.
  - rewrite store_chunks_cons in E.
    destruct (embeddings_create sv _ (content c) (world s)) as [[e|msg|] w1];
      try (injection E as <- <- <-; repeat split).
    cbv zeta in E.
    destruct (table_upsert sv "documents" _ w1) as [[u|msg|] w2];
      try (injection E as <- <- <-; repeat split).
    destruct (store_chunks sv rest _) as [[t2 s2] o2] eqn:E2.
    injection E as <- <- <-.
    apply IH in E2 as (Hy & Hp & Hc). cbn in *. repeat split; assumption.
Qed.

(** X6: when [store_chunks] returns, it has made exactly two calls per
    chunk, in the order of the list: the texts sent to the embedding
    provider are the chunk contents, and the rows upserted carry the
    chunk ids and contents with the metadata source = pdf. *)
Theorem store_chunks_all_stored (chunks : list Chunk) :
  forall (s s' : State W) t,
    store_chunks (Y:=Y) sv chunks s = (t, s', Returned tt) ->
    embed_inputs (calls t) = map content chunks
    /\ map (fun r => (rec_id r, rec_content r, rec_metadata r))
           (upserts (calls t))
       = map (fun c => (id c, content c, [("source", "pdf")])) chunks
    /\ List.length (calls t) = (2 * List.length chunks)%nat.
Proof.
  induction chunks as [|c rest IH]; intros s s' t E.
  - injection E as <- <-. repeat split.
  - rewrite store_chunks_cons in E.
    destruct (embeddings_create sv _ (content c) (world s)) as [[e|msg|] w1];
      try discriminate E.
    cbv zeta in E.
    destruct (table_upsert sv "documents" _ w1) as [[u|msg|] w2];
      try discriminate E.
    destruct (store_chunks sv rest _) as [[t2 s2] o2] eqn:E2.
    injection E as <- <- ->.
    apply IH in E2 as (He & Hu & Hn). cbn.
    rewrite He, Hu, Hn. repeat split. lia.
Qed.

(** X7: whatever the outcome, the calls of [store_chunks] concern a
    prefix of the list, in order: an upsert was sent for the first [n]
    chunks and an embedding requested for the first [m], with
    [n <= m <= n + 1].  On success the prefix is the whole list; on a
    failure the chunks after the [m]-th are never touched (and nothing
    already upserted is taken back: there is no call that deletes). *)
Theorem store_chunks_prefix (chunks : list Chunk) :
  forall (s s' : State W) t o,
    store_chunks (Y:=Y) sv chunks s = (t, s', o) ->
    exists n m : nat,
      map rec_id (upserts (calls t)) = firstn n (map id chunks)
      /\ embed_inputs (calls t) = firstn m (map content chunks)
      /\ (n <= m <= n + 1)%nat /\ (m <= List.length chunks)%nat
      /\ (o = Returned tt -> n = List.length chunks)
      /\ (o <> Returned tt -> (1 <= m)%nat).
Proof.
  induction chunks as [|c rest IH]; intros s s' t o E.
  - injection E as <- <- <-. exists O, O. cbn.
    repeat split; try lia. intros H. contradiction H. reflexivity.
  - rewrite store_chunks_cons in E.
    destruct (embeddings_create sv _ (content c) (world s)) as [[e|msg|] w1];
      try (injection E as <- <- <-; exists O, 1%nat; cbn;
           repeat split; solve [reflexivity | lia | discriminate]).
    cbv zeta in E.
    destruct (table_upsert sv "documents" _ w1) as [[u|msg|] w2];
      try (injection E as <- <- <-; exists 1%nat, 1%nat; cbn;
           rewrite ?firstn_O; repeat split;
           solve [reflexivity | lia | discriminate]).
    destruct (store_chunks sv rest _) as [[t2 s2] o2] eqn:E2.
    injection E as <- <- <-.
    apply IH in E2 as (n & m & Hu & He & Hnm & Hm & Hs & Hf).
    exists (S n), (S m). cbn. rewrite Hu, He.
    repeat split; try lia. intros H. rewrite (Hs H). reflexivity.
Qed.

End MoreIngestion.

Lemma store_chunks_all_stored_witness :
  embed_inputs
    (calls (fst (fst (store_chunks (Y:=unit)
                        (scripted no_pdf None no_stream)
                        [mkChunk "chunk_0" "abcd"; mkChunk "chunk_1" "defg"]
                        fresh))))
  = ["abcd"; "defg"].
Proof.
  destruct (store_chunks_all_stored (Y:=unit)
              (scripted no_pdf None no_stream)
              [mkChunk "chunk_0" "abcd"; mkChunk "chunk_1" "defg"] fresh fresh
              _ eq_refl) as (H & _).
  exact H.
Defined.

Lemma store_chunks_prefix_witness :
  exists n m : nat,
    map rec_id
      (upserts
         (calls (fst (fst (store_chunks (Y:=unit)
                             (broken_store no_pdf "down")
                             [mkChunk "chunk_0" "abcd";
                              mkChunk "chunk_1" "defg"]
                             fresh)))))
    = firstn n ["chunk_0"; "chunk_1"]
    /\ (n <= m <= n + 1)%nat /\ (1 <= m <= 2)%nat.
Proof.
  destruct (store_chunks_prefix (Y:=unit) (broken_store no_pdf "down")
              [mkChunk "chunk_0" "abcd"; mkChunk "chunk_1" "defg"] fresh fresh
              _ _ eq_refl) as (n & m & Hu & _ & Hnm & Hm & _ & Hf).
  exists n, m. split; [exact Hu|]. split; [exact Hnm|].
  split; [apply Hf; discriminate | exact Hm].
Defined.

(** ** The whole ingestion *)

Lemma slice_of_head_slice (text : string) :
  Py.slice (Py.slice text 0 1000) 0 1200 = Py.slice text 0 1000.
Proof.
  rewrite (slice_substring text 0 1000) by lia.
  rewrite slice_substring by lia.
  change (Z.to_nat 0) with O.
  rewrite substring_prefix_of_substring. reflexivity.
Qed.

Lemma nonblank_window_count (text : string) :
  blank text = false ->
  exists n, window_count text 1000 200 = S n.
Proof.
  intros B. destruct text as [|c r]; [discriminate B|].
  pose proof (ceil_div_bounds (Py.len (String c r)) (1000 - 200) ltac:(lia))
    as H.
  unfold window_count.
  assert (0 < Py.len (String c r)) as HL
    by (unfold Py.len; simpl String.length; lia).
  exists (Nat.pred (Z.to_nat (ceil_div (Py.len (String c r)) (1000 - 200)))).
  lia.
Qed.

Section WholeIngestion.

Context {W File Embedding Y : Type}.
Variable sv : Services W File Embedding.

(** [upload_pdf] on a file with visible text, in terms of the run of
    [store_chunks] on its chunks. *)
Lemma upload_pdf_nonblank (f : File) (s s2 : State W)
    (t : list (event File Embedding Y)) (o : outcome unit) :
  let text := pages_text "" (pages (fst (pdf_open sv f (world s)))) in
  let chunks := windows text 1000 200 (window_count text 1000 200) 0 0 in
  blank text = false ->
  store_chunks sv chunks (mkState (snd (pdf_open sv f (world s))) text chunks)
  = (t, s2, o) ->
  upload_pdf sv (Some f) s
  = (Call (PdfOpen f) :: t, s2,
     match o with
     | Returned _ =>
         Returned ("✅ PDF processed" ++ LF ++ "Chunks: "
                   ++ Py.str_of_int (Z.of_nat (List.length chunks)),
                   Py.slice text 0 1000)
     | Raised msg => Returned ("❌ Error: " ++ msg, "")
     | OutOfFuel => OutOfFuel
     end).
Proof.
  intros text chunks B E.
  unfold upload_pdf, try_except, extract_pdf_text.
  unfold bind at 1. unfold bind at 1. unfold extern at 1.
  subst text chunks.
  destruct (pdf_open sv f (world s)) as [r w]. cbn [fst snd] in *.
  set (text := pages_text "" (pages r)) in *.
  cbn [ret app]. unfold bind at 1, set_PDF_TEXT at 1.
  cbn [world PDF_TEXT CHUNKS app].
  rewrite truthy_strip, B. cbn [negb].
  unfold bind at 1, lift at 1. rewrite upload_chunking_returns.
  unfold bind at 1, set_CHUNKS at 1. cbn [world PDF_TEXT CHUNKS app].
  unfold bind at 1. rewrite E.
  destruct (nonblank_window_count text B) as [n Hn].
  destruct o as [[]|msg|]; cbn [app]; try reflexivity.
  - rewrite Hn. cbn [windows]. unfold ret. cbn [content].
    rewrite slice_of_head_slice. rewrite app_nil_r. reflexivity.
  - unfold ret. rewrite app_nil_r. reflexivity.
Qed.

(** X8: when the extracted text has a visible character and every chunk
    is stored, [upload_pdf] reports the number of chunks,
    [ceil(len(text) / 800)], and previews the first 1000 characters of
    the text; [PDF_TEXT] becomes the text and [CHUNKS] its chunks. *)
Theorem upload_pdf_stores_all (f : File) (s s2 : State W)
    (t : list (event File Embedding Y)) :
  let text := pages_text "" (pages (fst (pdf_open sv f (world s)))) in
  let chunks := windows text 1000 200 (window_count text 1000 200) 0 0 in
  blank text = false ->
  store_chunks sv chunks (mkState (snd (pdf_open sv f (world s))) text chunks)
  = (t, s2, Returned tt) ->
  upload_pdf sv (Some f) s
  = (Call (PdfOpen f) :: t, s2,
     Returned ("✅ PDF processed" ++ LF ++ "Chunks: "
               ++ Py.str_of_int (ceil_div (Py.len text) 800),
               Py.slice text 0 1000))
  /\ PDF_TEXT s2 = text
  /\ CHUNKS s2 = chunks
  /\ chunk_text (String.length text) text 1000 200 = Returned chunks.
Proof.
  intros text chunks B E.
  pose proof (upload_pdf_nonblank f s s2 t (Returned tt) B E) as H.
  cbv zeta in H. fold text in H. fold chunks in H.
  apply store_chunks_globals in E as (_ & Hp & Hc). cbn in Hp, Hc.
  split; [|split; [assumption | split; [assumption|]]].
  - rewrite H. subst chunks. rewrite windows_length.
    unfold window_count. rewrite Z2Nat.id. { reflexivity. }
    apply (window_count_nonneg text 1000 200). lia.
  - apply upload_chunking_returns.
Qed.

(** X9: when storing the chunks raises, [upload_pdf] catches the error:
    the message comes back in the error status with an empty preview,
    the calls made up to the failure stay made, and [PDF_TEXT] and
    [CHUNKS] already hold the new document. *)
Theorem upload_pdf_reports_failure (f : File) (s s2 : State W)
    (t : list (event File Embedding Y)) (msg : string) :
  let text := pages_text "" (pages (fst (pdf_open sv f (world s)))) in
  let chunks := windows text 1000 200 (window_count text 1000 200) 0 0 in
  blank text = false ->
  store_chunks sv chunks (mkState (snd (pdf_open sv f (world s))) text chunks)
  = (t, s2, Raised msg) ->
  upload_pdf sv (Some f) s
  = (Call (PdfOpen f) :: t, s2, Returned ("❌ Error: " ++ msg, ""))
  /\ PDF_TEXT s2 = text
  /\ CHUNKS s2 = chunks.
Proof.
  intros text chunks B E.
  pose proof (upload_pdf_nonblank f s s2 t (Raised msg) B E) as H.
  apply store_chunks_globals in E as (_ & Hp & Hc). cbn in Hp, Hc.
  split; [exact H | split; assumption].
Qed.

(** X10: [upload_pdf] never raises, whatever the file, the state and
    the services do. *)
Theorem upload_pdf_never_raises (file : option File) (s : State W)
    (msg : string) :
  snd (upload_pdf (Y:=Y) sv file s) <> Raised msg.
Proof.
  unfold upload_pdf, try_except.
  match goal with
  | |- context [match ?m s with _ => _ end] => destruct (m s) as [[t1 s1] o]
  end.
  destruct o; cbn; discriminate.
Qed.

End WholeIngestion.

(** ** More about [strip] and [split] *)

Lemma lstrip_fixed (c : ascii) (r : string) :
  Py.isspace c = false -> Py.lstrip (String c r) = String c r.
Proof. intros H. simpl. rewrite H. reflexivity. Qed.

Lemma lstrip_shape (s : string) :
  Py.lstrip s = ""
  \/ exists c r, Py.lstrip s = String c r /\ Py.isspace c = false.
Proof.
  induction s as [|c r IH]; simpl; [left; reflexivity|].
  destruct (Py.isspace c) eqn:E; [exact IH|].
  right. exists c, r. split; [reflexivity | assumption].
Qed.

Lemma rstrip_keeps_head (c : ascii) (r : string) :
  Py.isspace c = false -> exists r', Py.rstrip (String c r) = String c r'.
Proof.
  intros H. simpl. destruct (Py.rstrip r); rewrite ?H; eexists; reflexivity.
Qed.

Lemma rstrip_idempotent (s : string) : Py.rstrip (Py.rstrip s) = Py.rstrip s.
Proof.
  induction s as [|c r IH]; [reflexivity|].
  simpl. destruct (Py.rstrip r) as [|c' r'] eqn:E.
  - destruct (Py.isspace c) eqn:Hc; [reflexivity|]. simpl. rewrite Hc.
    reflexivity.
  - change (Py.rstrip (String c (String c' r'))) with
      (match Py.rstrip (String c' r') with
       | "" => if Py.isspace c then "" else String c ""
       | x => String c x
       end).
    rewrite IH. reflexivity.
Qed.

(** [strip] is idempotent. *)
Lemma strip_idempotent (s : string) : Py.strip (Py.strip s) = Py.strip s.
Proof.
  unfold Py.strip.
  destruct (lstrip_shape s) as [E|(c & r & E & Hc)]; rewrite E.
  - reflexivity.
  - destruct (rstrip_keeps_head c r Hc) as [r' E'].
    rewrite E'. rewrite lstrip_fixed by assumption.
    rewrite <- E'. apply rstrip_idempotent.
Qed.

Lemma truthy_append_char (w : string) (c : ascii) :
  Py.truthy (w ++ String c "") = true.
Proof. destruct w; reflexivity. Qed.

Lemma split_from_blank (s : string) :
  blank s = true ->
  forall w, Py.split_from w s = if Py.truthy w then [w] else [].
Proof.
  induction s as [|c r IH]; intros B w; [reflexivity|].
  simpl in B. apply andb_true_iff in B as [Hc Hr].
  simpl. rewrite Hc. rewrite (IH Hr ""). simpl.
  destruct (Py.truthy w); reflexivity.
Qed.

Lemma split_from_rstrip (s : string) :
  forall w, Py.split_from w (Py.rstrip s) = Py.split_from w s.
Proof.
  induction s as [|c r IH]; intros w; [reflexivity|].
  simpl Py.rstrip. destruct (Py.rstrip r) as [|c' r'] eqn:E.
  - pose proof (rstrip_empty r E) as B.
    destruct (Py.isspace c) eqn:Hc; simpl; rewrite Hc.
    + rewrite (split_from_blank r B ""). simpl.
      destruct (Py.truthy w); reflexivity.
    + rewrite (split_from_blank r B). rewrite truthy_append_char.
      reflexivity.
  - simpl. destruct (Py.isspace c); rewrite <- !IH; reflexivity.
Qed.

Lemma split_lstrip (s : string) : Py.split (Py.lstrip s) = Py.split s.
Proof.
  unfold Py.split. induction s as [|c r IH]; [reflexivity|].
  simpl. destruct (Py.isspace c) eqn:Hc; [exact IH|].
  simpl. rewrite Hc. reflexivity.
Qed.

(** Stripping a text does not change its words. *)
Lemma split_strip (s : string) : Py.split (Py.strip s) = Py.split s.
Proof.
  unfold Py.strip, Py.split at 1. rewrite split_from_rstrip.
  apply split_lstrip.
Qed.

Lemma split_from_word (s : string) :
  forall w, Py.truthy w = true -> Py.split_from w s <> [].
Proof.
  induction s as [|c r IH]; intros w H; simpl.
  - rewrite H. discriminate.
  - destruct (Py.isspace c); [rewrite H; discriminate|].
    apply IH, truthy_append_char.
Qed.

(** A text with a visible character has at least one word. *)
Lemma nonblank_has_word (s : string) :
  blank s = false -> 1 <= word_count s.
Proof.
  intros B. unfold word_count, Py.split.
  assert (Py.split_from "" s <> []) as H.
  { induction s as [|c r IH]; [discriminate B|].
    simpl in *. destruct (Py.isspace c); simpl in *.
    - apply IH, B.
    - apply split_from_word. reflexivity. }
  destruct (Py.split_from "" s); [contradiction|]. simpl. lia.
Qed.

Lemma clean_has_word (p : string) : clean p -> 1 <= word_count p.
Proof.
  intros [Hne Hs]. apply nonblank_has_word.
  destruct (blank p) eqn:B; [|reflexivity].
  apply strip_blank in B. congruence.
Qed.

Lemma strip_clean (s : string) :
  Py.truthy (Py.strip s) = true -> clean (Py.strip s).
Proof.
  intros H. split; [|apply strip_idempotent].
  destruct (Py.strip s); [discriminate H | discriminate].
Qed.

Lemma words_in_app (a b : list string) :
  words_in (a ++ b) = words_in a + words_in b.
Proof.
  induction a as [|p a IH]; simpl; [reflexivity|]. rewrite IH. lia.
Qed.

Lemma words_in_nonneg (a : list string) : 0 <= words_in a.
Proof.
  induction a as [|p a IH]; simpl; [lia|]. unfold word_count. lia.
Qed.

(** ** The loop over the stream *)

Section StreamLoop.

Context {W File Embedding : Type}.

(** The values a stream chunk gives to the loop body: the section text
    after it and what it makes the loop yield. *)
Lemma for_chunk_in_stream_cons (delta : option string)
    (rest : list (option string)) (text : string) (st : Synth)
    (s : State W) :
  for_chunk_in_stream (W:=W) (File:=File) (Embedding:=Embedding)
    (delta :: rest) text st s
  = let text1 :=
      match delta with
      | Some (String c r) => text ++ String c r
      | _ => text
      end in
    let y1 :=
      match delta with
      | Some (String c r) =>
          [Yield (Py.join LFLF (document_parts st ++ [text1])%list)]
      | _ => []
      end in
    let st1 :=
      if Py.truthy (Py.strip text1)
      then mkSynth (section st)
             (document_parts st ++ [Py.strip text1])%list
             (total_words st + word_count text1)
      else st in
    let st2 := mkSynth (section st1 + 1) (document_parts st1)
                 (total_words st1) in
    if 25 <? section st2
    then (y1, s, Returned (text1, st2, true))
    else
      match for_chunk_in_stream rest text1 st2 s with
      | (t, s', o) => ((y1 ++ t)%list, s', o)
      end.
Proof.
  cbv zeta. cbn [for_chunk_in_stream]. unfold word_count.
  destruct delta as [[|c r]|]; unfold bind, yield, ret; cbn [app];
    match goal with
    | |- context [25 <? ?x] => destruct (25 <? x)
    end;
    try reflexivity;
    match goal with
    | |- context [for_chunk_in_stream ?a ?b ?c s] =>
        destruct (for_chunk_in_stream a b c s) as [[t s'] o]
    end; reflexivity.
Qed.

(** What one run of the loop over a stream does.  It calls nothing and
    keeps the state; it consumes [n] chunks, one section number each,
    and yields at most once per chunk; it stops by [break] only once
    the section number is over 25, and otherwise at the end of the
    stream; it appends the sections [new], all clean, and adds their
    words to the count. *)
Lemma for_chunk_in_stream_run (chunks : list (option string)) :
  forall (text : string) (st : Synth) (s : State W),
  exists (ys : list string) (text' : string) (st' : Synth) (b : bool)
         (n : nat) (new : list string),
    for_chunk_in_stream (File:=File) (Embedding:=Embedding) chunks text st s
    = (map Yield ys, s, Returned (text', st', b))
    /\ section st' = section st + Z.of_nat n
    /\ (List.length ys <= n <= List.length chunks)%nat
    /\ Z.of_nat n <= Z.max 1 (26 - section st)
    /\ (b = false -> n = List.length chunks)
    /\ (b = true -> 25 < section st')
    /\ document_parts st' = (document_parts st ++ new)%list
    /\ Forall clean new
    /\ total_words st' = total_words st + words_in new
    /\ (forall w rest,
          chunks = Some w :: rest -> blank (text ++ w) = false ->
          new <> []).
Proof.
  induction chunks as [|delta rest IH]; intros text st s.
  - exists [], text, st, false, O, []. cbn. rewrite app_nil_r.
    repeat split; try lia; try constructor; try discriminate.
  - rewrite for_chunk_in_stream_cons. cbv zeta.
    set (text1 := match delta with
                  | Some (String c r) => text ++ String c r
                  | _ => text
                  end).
    set (y1 := match delta with
               | Some (String c r) =>
                   [Yield (Py.join LFLF (document_parts st ++ [text1])%list)]
               | _ => []
               end : list (event File Embedding string)).
    assert (exists ys1, y1 = map Yield ys1 /\ (List.length ys1 <= 1)%nat)
      as (ys1 & Hy1 & Hl1).
    { subst y1. destruct delta as [[|c r]|].
      - exists []. split; [reflexivity | simpl; lia].
      - eexists [_]. split; [reflexivity | simpl; lia].
      - exists []. split; [reflexivity | simpl; lia]. }
    assert (forall w, delta = Some w -> text1 = text ++ w) as Htext1.
    { intros w ->. subst text1. destruct w; [|reflexivity].
      clear. induction text; simpl; congruence. }
    set (st1 := if Py.truthy (Py.strip text1)
                then mkSynth (section st)
                       (document_parts st ++ [Py.strip text1])%list
                       (total_words st + word_count text1)
                else st).
    assert (exists new1,
               section st1 = section st
               /\ document_parts st1 = (document_parts st ++ new1)%list
               /\ Forall clean new1
               /\ total_words st1 = total_words st + words_in new1
               /\ (blank text1 = false -> new1 <> []))
      as (new1 & Hs1 & Hp1 & Hc1 & Hw1 & Hn1).
    { subst st1. destruct (Py.truthy (Py.strip text1)) eqn:T.
      - exists [Py.strip text1]. cbn.
        repeat split; try discriminate.
        + constructor; [apply strip_clean, T | constructor].
        + unfold word_count. rewrite split_strip. lia.
      - exists []. cbn. rewrite app_nil_r.
        repeat split; try constructor; try lia.
        intros B. rewrite truthy_strip, B in T. discriminate T. }
    cbn [section document_parts total_words].
    destruct (Z.ltb_spec 25 (section st1 + 1)) as [Hbrk|Hgo].
    + exists ys1, text1,
        (mkSynth (section st1 + 1) (document_parts st1) (total_words st1)),
        true, 1%nat, new1.
      rewrite Hy1. cbn.
      repeat split; try assumption; try lia; try discriminate.
      intros w rest' E B. injection E as -> _.
      apply Hn1. rewrite (Htext1 w eq_refl). exact B.
    + destruct (IH text1
                  (mkSynth (section st1 + 1) (document_parts st1)
                     (total_words st1)) s)
        as (ys & text' & st' & b & n & new & E & Hsec & Hlen & Hbound & Hb0
            & Hb1 & Hparts & Hclean & Hwords & _).
      rewrite E. cbn [section document_parts total_words] in *.
      exists (ys1 ++ ys)%list, text', st', b, (S n), (new1 ++ new)%list.
      rewrite Hy1, <- map_app.
      repeat split; try assumption.
      * lia.
      * rewrite length_app. lia.
      * simpl. lia.
      * lia.
      * intros Hb. rewrite (Hb0 Hb). reflexivity.
      * rewrite Hparts, Hp1, app_assoc. reflexivity.
      * apply Forall_app. split; assumption.
      * rewrite Hwords, Hw1, words_in_app. lia.
      * intros w rest' E' B. injection E' as -> _.
        rewrite <- (Htext1 w eq_refl) in B.
        specialize (Hn1 B). destruct new1; [contradiction | discriminate].
Qed.

End StreamLoop.

(** ** The passes of the synthesis loop *)

Section Passes.

Context {W File Embedding : Type}.
Variable sv : Services W File Embedding.

(** The [while] loop is a sequence of passes. *)
Lemma handbook_loop_unroll (fuel : nat) (topic : string) (target_words : Z)
    (st : Synth) (s : State W) :
  handbook_loop sv (S fuel) topic target_words st s
  = if total_words st <? target_words
    then bind (handbook_pass sv topic st)
              (fun st' => handbook_loop sv fuel topic target_words st') s
    else ret st s.
Proof.
  rewrite handbook_loop_step.
  destruct (total_words st <? target_words); [|reflexivity].
  unfold handbook_pass, bind.
  destruct (search_supabase sv topic 5 s) as [[t1 s1] [results| |]];
    try reflexivity.
  destruct (extern _ _ s1) as [[t2 s2] [stream| |]]; try reflexivity.
  destruct (for_chunk_in_stream _ _ _ s2) as [[t3 s3] [[[text' st'] b]| |]];
    try reflexivity.
  destruct b, (stream_error stream); unfold raise, ret, yield;
    try reflexivity;
    destruct (handbook_loop sv fuel topic target_words st' s3)
      as [[t4 s4] o4];
    cbn [app]; rewrite ?app_nil_r, <- ?app_assoc; reflexivity.
Qed.

(** A search makes the embedding call of its query and, if that
    returns, the matching call; it keeps the globals. *)
Lemma search_supabase_run {Y} (query : string) (k : Z) (s s' : State W)
    (t : list (event File Embedding Y)) (o : outcome (list string)) :
  search_supabase sv query k s = (t, s', o) ->
  yields t = []
  /\ PDF_TEXT s' = PDF_TEXT s /\ CHUNKS s' = CHUNKS s
  /\ exists rest,
       calls t = EmbeddingsCreate "text-embedding-3-small" query :: rest
       /\ (rest = [] \/ exists e, rest = [RpcMatchDocuments e k]).
Proof.
  unfold search_supabase, embed, bind, extern, ret. intros E.
  destruct (embeddings_create sv _ query (world s)) as [[e|msg|] w].
  - cbn [world PDF_TEXT CHUNKS] in E.
    destruct (rpc_match_documents sv e k w) as [[d|msg|] w'];
      injection E as <- <- <-; cbn; repeat split;
      eexists; (split; [reflexivity | right; eexists; reflexivity]).
  - injection E as <- <- <-. cbn. repeat split.
    eexists; (split; [reflexivity | left; reflexivity]).
  - injection E as <- <- <-. cbn. repeat split.
    eexists; (split; [reflexivity | left; reflexivity]).
Qed.

Lemma calls_app {Y} (a b : list (event File Embedding Y)) :
  calls (a ++ b) = (calls a ++ calls b)%list.
Proof.
  induction a as [|[c|y] a IH]; simpl; rewrite ?IH; reflexivity.
Qed.

Lemma yields_app {Y} (a b : list (event File Embedding Y)) :
  yields (a ++ b) = (yields a ++ yields b)%list.
Proof.
  induction a as [|[c|y] a IH]; simpl; rewrite ?IH; reflexivity.
Qed.

Lemma calls_map_yield {Y} (ys : list Y) :
  calls (map (@Yield File Embedding Y) ys) = [].
Proof. induction ys; simpl; assumption || reflexivity. Qed.

Lemma yields_map_yield {Y} (ys : list Y) :
  yields (map (@Yield File Embedding Y) ys) = ys.
Proof. induction ys as [|y ys IH]; simpl; rewrite ?IH; reflexivity. Qed.

(** What one pass does, whatever the services answer. *)
Lemma handbook_pass_run (topic : string) (st : Synth) (s s' : State W)
    (t : list (event File Embedding string)) (o : outcome Synth) :
  handbook_pass sv topic st s = (t, s', o) ->
  Forall (synthesis_call topic) (calls t)
  /\ PDF_TEXT s' = PDF_TEXT s /\ CHUNKS s' = CHUNKS s
  /\ forall st',
       o = Returned st' ->
       exists (n : nat) (new : list string),
         section st' = section st + Z.of_nat n
         /\ Z.of_nat n <= Z.max 1 (26 - section st)
         /\ (List.length (yields t) <= n + 1)%nat
         /\ document_parts st' = (document_parts st ++ new)%list
         /\ Forall clean new
         /\ total_words st' = total_words st + words_in new
         /\ last (yields t) ""
            = Py.join LFLF (document_parts st') ++ LFLF ++ FINISHED.
Proof.
  unfold handbook_pass. unfold bind at 1. intros E.
  destruct (search_supabase sv topic 5 s) as [[t1 s1] o1] eqn:E1.
  apply search_supabase_run in E1
    as (Hy1 & Hp1 & Hc1 & rest & Hcalls1 & Hrest).
  assert (Forall (synthesis_call (File:=File) (Embedding:=Embedding) topic)
            (calls t1)) as Hok1.
  { rewrite Hcalls1. constructor; [split; reflexivity|].
    destruct Hrest as [->|[e ->]]; repeat constructor. }
  destruct o1 as [results| |];
    try (injection E as <- <- <-; repeat split; try assumption;
         intros st' H; discriminate H).
  unfold bind at 1, extern at 1 in E.
  destruct (chat_completions_create sv _ _ _ 2048 (world s1))
    as [ostream w2].
  destruct ostream as [stream| |];
    try (injection E as <- <- <-; rewrite calls_app; cbn;
         repeat split; try assumption;
         [apply Forall_app; split;
          [assumption | repeat constructor]
         | intros st' H; discriminate H]).
  unfold bind at 1 in E.
  destruct (for_chunk_in_stream_run (File:=File) (Embedding:=Embedding)
              (deltas stream) "" st
              (mkState w2 (PDF_TEXT s1) (CHUNKS s1)))
    as (ys & text' & st2 & b & n & new & Erun & Hsec & Hlen & Hbound & _ & _
        & Hparts & Hclean & Hwords & _).
  rewrite Erun in E.
  unfold bind in E. unfold raise, ret, yield in E.
  destruct b, (stream_error stream) as [msg|];
    injection E as <- <- <-;
    (split;
     [rewrite calls_app; cbn [calls];
      rewrite ?calls_app, ?calls_map_yield; cbn [calls app];
      apply Forall_app; split; [assumption | repeat constructor]|]);
    (split; [exact Hp1|]); (split; [exact Hc1|]);
    intros st' H; try discriminate H; injection H as <-;
    exists n, new;
    rewrite yields_app, Hy1; cbn [app yields];
    rewrite yields_app, yields_map_yield; cbn [yields];
    (repeat split; try assumption; try lia);
    [rewrite length_app; simpl; lia | rewrite last_last; reflexivity
    |rewrite length_app; simpl; lia | rewrite last_last; reflexivity
    |rewrite length_app; simpl; lia | rewrite last_last; reflexivity].
Qed.

End Passes.

(** ** The synthesis loop as a whole *)

Lemma last_app_nonempty {A} (a b : list A) (d : A) :
  b <> [] -> last (a ++ b) d = last b d.
Proof.
  intros Hb. induction a as [|x a IH]; [reflexivity|].
  simpl. destruct (a ++ b)%list eqn:E; [|exact IH].
  apply app_eq_nil in E as [_ E]. contradiction.
Qed.

Section Loop.

Context {W File Embedding : Type}.
Variable sv : Services W File Embedding.

Lemma bind_inv {Y A B} (m : Gen W File Embedding Y A)
    (k : A -> Gen W File Embedding Y B) (s s' : State W)
    (t : list (event File Embedding Y)) (o : outcome B) :
  bind m k s = (t, s', o) ->
  exists t1 s1 o1,
    m s = (t1, s1, o1)
    /\ match o1 with
       | Returned a => exists t2, k a s1 = (t2, s', o) /\ t = (t1 ++ t2)%list
       | Raised msg => t = t1 /\ s' = s1 /\ o = Raised msg
       | OutOfFuel => t = t1 /\ s' = s1 /\ o = OutOfFuel
       end.
Proof.
  unfold bind. destruct (m s) as [[t1 s1] [a|msg|]]; intros E.
  - destruct (k a s1) as [[t2 s2] o2] eqn:Ek. injection E as <- <- <-.
    exists t1, s1, (Returned a). split; [reflexivity|].
    exists t2. split; [exact Ek | reflexivity].
  - injection E as <- <- <-. exists t1, s1, (Raised msg). repeat split.
  - injection E as <- <- <-. exists t1, s1, OutOfFuel. repeat split.
Qed.

(** What a run of the [while] loop does, whatever the services answer
    and however many passes it is given. *)
Lemma handbook_loop_run (topic : string) (target_words : Z) (fuel : nat) :
  forall (st : Synth) (s s' : State W)
         (t : list (event File Embedding string)) (o : outcome Synth),
    handbook_loop sv fuel topic target_words st s = (t, s', o) ->
    Forall (synthesis_call topic) (calls t)
    /\ PDF_TEXT s' = PDF_TEXT s /\ CHUNKS s' = CHUNKS s
    /\ forall st',
         o = Returned st' ->
         target_words <= total_words st'
         /\ (target_words <= total_words st -> t = [] /\ st' = st)
         /\ exists new,
              document_parts st' = (document_parts st ++ new)%list
              /\ Forall clean new
              /\ total_words st' = total_words st + words_in new
              /\ (total_words st < target_words ->
                  last (yields t) ""
                  = Py.join LFLF (document_parts st') ++ LFLF ++ FINISHED).
Proof.
  assert (Hexit : forall (st : Synth) (s : State W),
             target_words <= total_words st ->
             Forall (synthesis_call (File:=File) (Embedding:=Embedding) topic)
               (calls (@nil (event File Embedding string)))
             /\ PDF_TEXT s = PDF_TEXT s /\ CHUNKS s = CHUNKS s
             /\ forall st',
                  Returned st = Returned st' ->
                  target_words <= total_words st'
                  /\ (target_words <= total_words st ->
                      @nil (event File Embedding string) = [] /\ st' = st)
                  /\ exists new,
                       document_parts st' = (document_parts st ++ new)%list
                       /\ Forall clean new
                       /\ total_words st' = total_words st + words_in new
                       /\ (total_words st < target_words ->
                           last (yields (@nil (event File Embedding string)))
                                ""
                           = Py.join LFLF (document_parts st') ++ LFLF
                             ++ FINISHED)).
  { intros st s Hge. split; [constructor|]. split; [reflexivity|].
    split; [reflexivity|]. intros st' H. injection H as <-.
    split; [assumption|]. split; [intros _; split; reflexivity|].
    exists []. rewrite app_nil_r. cbn.
    split; [reflexivity|]. split; [constructor|]. split; [lia|]. lia. }
  induction fuel as [|fuel IH]; intros st s s' t o E.
  - cbn [handbook_loop] in E.
    destruct (Z.ltb_spec (total_words st) target_words) as [Hlt|Hge].
    + injection E as <- <- <-. split; [constructor|].
      split; [reflexivity|]. split; [reflexivity|].
      intros st' H. discriminate H.
    + injection E as <- <- <-. apply Hexit, Hge.
  - rewrite handbook_loop_unroll in E.
    destruct (Z.ltb_spec (total_words st) target_words) as [Hlt|Hge].
    + apply bind_inv in E as (t1 & s1 & o1 & E1 & E2).
      apply handbook_pass_run in E1 as (Hok1 & Hp1 & Hc1 & Hret1).
      destruct o1 as [st1|msg|].
      * destruct E2 as (t2 & E2 & ->).
        apply IH in E2 as (Hok2 & Hp2 & Hc2 & Hret2).
        rewrite calls_app.
        split; [apply Forall_app; split; assumption|].
        split; [congruence|]. split; [congruence|].
        intros st' H.
        destruct (Hret1 st1 eq_refl)
          as (n & new1 & _ & _ & _ & Hparts1 & Hclean1 & Hwords1 & Hlast1).
        destruct (Hret2 st' H)
          as (Htarget & Hstay & new2 & Hparts2 & Hclean2 & Hwords2 & Hlast2).
        split; [assumption|]. split; [intros Hge; lia|].
        exists (new1 ++ new2)%list.
        split; [rewrite Hparts2, Hparts1, app_assoc; reflexivity|].
        split; [apply Forall_app; split; assumption|].
        split; [rewrite Hwords2, Hwords1, words_in_app; lia|].
        intros _. rewrite yields_app.
        destruct (Z.lt_ge_cases (total_words st1) target_words)
          as [Hmore|Hdone].
        -- rewrite last_app_nonempty; [apply Hlast2, Hmore|].
           intros Hnil. specialize (Hlast2 Hmore).
           rewrite Hnil in Hlast2. cbn [last] in Hlast2.
           destruct (Py.join LFLF (document_parts st'));
             simpl in Hlast2; discriminate Hlast2.
        -- destruct (Hstay Hdone) as [-> ->]. cbn [yields].
           rewrite app_nil_r. exact Hlast1.
      * destruct E2 as (-> & -> & ->).
        split; [assumption|]. split; [assumption|]. split; [assumption|].
        intros st' H. discriminate H.
      * destruct E2 as (-> & -> & ->).
        split; [assumption|]. split; [assumption|]. split; [assumption|].
        intros st' H. discriminate H.
    + injection E as <- <- <-. apply Hexit, Hge.
Qed.

End Loop.

(** ** What the synthesis guarantees *)

Section SynthesisFacts.

Context {W File Embedding : Type}.
Variable sv : Services W File Embedding.

(** X11: whatever the services answer, [generate_handbook_stream] only
    reads: every call it makes is the embedding of the topic, a search
    for 5 matches or a completion request to the fixed model; it never
    upserts a row or opens a file, and it leaves [PDF_TEXT] and
    [CHUNKS] as they were. *)
Theorem synthesis_only_reads (fuel : nat) (topic : string)
    (target_words : Z) (s : State W) :
  Forall (synthesis_call topic)
    (calls (fst (fst (generate_handbook_stream sv fuel topic target_words s))))
  /\ PDF_TEXT (snd (fst (generate_handbook_stream sv fuel topic
                           target_words s)))
     = PDF_TEXT s
  /\ CHUNKS (snd (fst (generate_handbook_stream sv fuel topic
                         target_words s)))
     = CHUNKS s.
Proof.
  unfold generate_handbook_stream.
  destruct (negb (Py.truthy (Py.strip topic))).
  - cbn. repeat split. constructor.
  - unfold bind.
    destruct (handbook_loop sv fuel topic target_words (mkSynth 1 [] 0) s)
      as [[t s'] o] eqn:E.
    apply handbook_loop_run in E as (Hok & Hp & Hc & _).
    destruct o; cbn; rewrite ?app_nil_r; repeat split; assumption.
Qed.

(** X12: when [generate_handbook_stream] returns for a topic with a
    visible character and a positive target, the last value it yielded
    is the finished document: sections that are each non-empty and
    stripped, joined by blank lines and followed by the completion
    marker, holding at least [target_words] words in total. *)
Theorem finished_document_reaches_target (fuel : nat) (topic : string)
    (target_words : Z) (s s' : State W)
    (t : list (event File Embedding string)) :
  blank topic = false -> 0 < target_words ->
  generate_handbook_stream sv fuel topic target_words s
  = (t, s', Returned tt) ->
  exists parts,
    Forall clean parts
    /\ target_words <= words_in parts
    /\ last (yields t) "" = Py.join LFLF parts ++ LFLF ++ FINISHED.
Proof.
  intros B Hpos E. unfold generate_handbook_stream in E.
  rewrite truthy_strip, B in E. cbn [negb] in E.
  apply bind_inv in E as (t1 & s1 & o1 & E1 & E2).
  destruct o1 as [st| |]; try (destruct E2 as (_ & _ & H); discriminate H).
  destruct E2 as (t2 & E2 & ->). injection E2 as <- _.
  apply handbook_loop_run in E1 as (_ & _ & _ & Hret).
  destruct (Hret st eq_refl)
    as (Htarget & _ & new & Hparts & Hclean & Hwords & Hlast).
  cbn [document_parts total_words app] in *.
  exists new. rewrite app_nil_r. rewrite Hparts in Hlast.
  split; [assumption|]. split; [lia|]. apply Hlast. lia.
Qed.

(** X13: one run of the loop over a stream calls no service.  It
    consumes [n] chunks of the stream and adds [n] to the section
    number, yields at most once per chunk consumed, and consumes at
    most [max(1, 26 - section)] chunks: once the section number is over
    25, a single chunk.  It ends by [break] only with a section number
    over 25, and otherwise consumes the whole stream. *)
Theorem stream_loop_bound (chunks : list (option string)) (text : string)
    (st : Synth) (s : State W) :
  exists (ys : list string) (text' : string) (st' : Synth) (b : bool)
         (n : nat),
    for_chunk_in_stream (File:=File) (Embedding:=Embedding) chunks text st s
    = (map Yield ys, s, Returned (text', st', b))
    /\ section st' = section st + Z.of_nat n
    /\ (List.length ys <= n <= List.length chunks)%nat
    /\ Z.of_nat n <= Z.max 1 (26 - section st)
    /\ (b = false -> n = List.length chunks)
    /\ (b = true -> 25 < section st').
Proof.
  destruct (for_chunk_in_stream_run (File:=File) (Embedding:=Embedding)
              chunks text st s)
    as (ys & text' & st' & b & n & new & E & H1 & H2 & H3 & H4 & H5 & _).
  exists ys, text', st', b, n. repeat split; try assumption; lia.
Qed.

(** The services always answer, and every stream starts with a token
    that has a visible character and ends without an error. *)
Hypothesis embedding_answers :
  forall model input w,
    exists e, fst (embeddings_create sv model input w) = Returned e.
Hypothesis search_answers :
  forall e k w, exists d, fst (rpc_match_documents sv e k w) = Returned d.
Hypothesis completion_productive :
  forall model system user max_tokens w,
    exists token rest,
      fst (chat_completions_create sv model system user max_tokens w)
      = Returned (mkStream (Some token :: rest) None)
      /\ blank token = false.

Lemma handbook_pass_productive (topic : string) (st : Synth) (s : State W) :
  exists t s1 st1,
    handbook_pass sv topic st s = (t, s1, Returned st1)
    /\ total_words st + 1 <= total_words st1.
Proof.
  unfold handbook_pass, bind at 1, search_supabase, bind, embed, extern.
  destruct (embedding_answers "text-embedding-3-small" topic (world s))
    as [e He].
  destruct (embeddings_create sv _ topic (world s)) as [oe w1].
  cbn [fst] in He. subst oe. cbn [world PDF_TEXT CHUNKS].
  destruct (search_answers e 5 w1) as [d Hd].
  destruct (rpc_match_documents sv e 5 w1) as [od w2].
  cbn [fst] in Hd. subst od. cbn [ret world PDF_TEXT CHUNKS].
  match goal with
  | |- context [chat_completions_create sv ?m ?sy ?u ?mt w2] =>
      destruct (completion_productive m sy u mt w2)
        as (token & rest & Hs & Htok);
      destruct (chat_completions_create sv m sy u mt w2) as [os w3]
  end.
  cbn [fst] in Hs. subst os. cbn [deltas stream_error world PDF_TEXT CHUNKS].
  destruct (for_chunk_in_stream_run (File:=File) (Embedding:=Embedding)
              (Some token :: rest) "" st
              (mkState w3 (PDF_TEXT s) (CHUNKS s)))
    as (ys & text' & st1 & b & n & new & E & _ & _ & _ & _ & _ & _ & Hclean
        & Hwords & Hprod).
  rewrite E. unfold ret, yield.
  destruct b; cbn [app]; do 3 eexists; (split; [reflexivity|]);
    specialize (Hprod token rest eq_refl Htok);
    (destruct new as [|p new]; [contradiction|]);
    inversion Hclean as [|? ? Hp _]; subst;
    pose proof (clean_has_word p Hp);
    pose proof (words_in_nonneg new);
    rewrite Hwords; cbn [words_in fold_right]; fold (words_in new); lia.
Qed.

Lemma handbook_loop_returns (topic : string) (target_words : Z)
    (fuel : nat) :
  forall (st : Synth) (s : State W),
    (Z.to_nat (target_words - total_words st) <= fuel)%nat ->
    exists st', snd (handbook_loop sv fuel topic target_words st s)
                = Returned st'.
Proof.
  induction fuel as [|fuel IH]; intros st s Hf.
  - cbn [handbook_loop].
    destruct (Z.ltb_spec (total_words st) target_words); [lia|].
    exists st. reflexivity.
  - rewrite handbook_loop_unroll.
    destruct (Z.ltb_spec (total_words st) target_words);
      [|exists st; reflexivity].
    destruct (handbook_pass_productive topic st s)
      as (t & s1 & st1 & E & Hw).
    rewrite (snd_bind_returned _ _ s s1 t st1 E).
    apply IH. lia.
Qed.

(** X14: with services that always answer and a completion provider
    whose every stream starts with a token that has a visible character
    (and ends normally), [generate_handbook_stream] returns within
    [target_words] passes of its [while] loop, for every topic and
    target. *)
Theorem synthesis_terminates (fuel : nat) (topic : string)
    (target_words : Z) (s : State W) :
  (Z.to_nat target_words <= fuel)%nat ->
  snd (generate_handbook_stream sv fuel topic target_words s) = Returned tt.
Proof.
  intros Hf. unfold generate_handbook_stream.
  destruct (negb (Py.truthy (Py.strip topic))); [reflexivity|].
  destruct (handbook_loop_returns topic target_words fuel (mkSynth 1 [] 0) s)
    as [st' H]; [cbn; lia|].
  unfold bind.
  destruct (handbook_loop sv fuel topic target_words (mkSynth 1 [] 0) s)
    as [[t s1] o].
  cbn [snd] in H. subst o. reflexivity.
Qed.

End SynthesisFacts.

(** ** What [chat] guarantees *)

Lemma str_append_assoc (a b c : string) : (a ++ b) ++ c = a ++ b ++ c.
Proof. induction a as [|x a IH]; simpl; [reflexivity | rewrite IH; reflexivity]. Qed.

Lemma set_last_content_snoc (base : History) (turn : Turn.t) (v : string) :
  set_last_content (base ++ [turn])%list v
  = (base ++ [Turn.mk (Turn.role turn) v])%list.
Proof.
  induction base as [|x base IH]; [reflexivity|].
  cbn [app].
  change (set_last_content (x :: (base ++ [turn])%list) v)
    with (match (base ++ [turn])%list with
          | [] => [Turn.mk (Turn.role x) v]
          | _ :: _ => x :: set_last_content (base ++ [turn])%list v
          end).
  destruct (base ++ [turn])%list eqn:E.
  - destruct base; discriminate E.
  - rewrite IH. reflexivity.
Qed.

Section ChatFacts.

Context {W File Embedding : Type}.
Variable sv : Services W File Embedding.

(** X15: for an empty or whitespace-only message [chat] yields nothing
    and calls nothing; the generator just returns the history it was
    given. *)
Theorem chat_blank_message (fuel : nat) (message : string)
    (history : History) (s : State W) :
  blank message = true ->
  chat sv fuel message history s = ([], s, Returned (Some history)).
Proof.
  intros B. unfold chat. rewrite truthy_strip, B. reflexivity.
Qed.

(** X16: for a question (a message that is not blank and does not start
    with the handbook trigger) whose search returns at least one
    passage, [chat] yields exactly one history, after the calls of the
    search: the history it was given, then the user's message, then an
    assistant turn holding the passages joined by blank lines, in the
    order of the search. *)
Theorem chat_answers_with_passages (fuel : nat) (message : string)
    (history : History) (s s' : State W)
    (t : list (event File Embedding History)) (r : string)
    (rs : list string) :
  blank message = false ->
  Py.startswith (Py.lower message) "create a handbook" = false ->
  search_supabase sv message 5 s = (t, s', Returned (r :: rs)) ->
  chat sv fuel message history s
  = ((t ++ [Yield (history
                   ++ [Turn.mk "user" message;
                       Turn.mk "assistant" (Py.join LFLF (r :: rs))])%list])
       %list,
     s', Returned None)
  /\ yields (fst (fst (chat sv fuel message history s)))
     = [(history
         ++ [Turn.mk "user" message;
             Turn.mk "assistant" (Py.join LFLF (r :: rs))])%list].
Proof.
  intros B T E. unfold History in *.
  assert (chat sv fuel message history s
          = ((t ++ [Yield (history
                           ++ [Turn.mk "user" message;
                               Turn.mk "assistant"
                                 (Py.join LFLF (r :: rs))])%list])%list,
             s', Returned None)) as H.
  { unfold chat. rewrite truthy_strip, B, T. cbn [negb].
    unfold bind at 1. cbv beta. rewrite E. cbv iota beta.
    unfold bind, yield, ret. cbn [app]. rewrite <- app_assoc. reflexivity. }
  split; [exact H|]. rewrite H. cbn [fst].
  pose proof (search_supabase_no_yield sv (Y:=list Turn.t) message 5 s) as Hy.
  rewrite E in Hy. cbn [fst] in Hy.
  rewrite yields_app, Hy. reflexivity.
Qed.

(** X17: when the search of a question raises, [chat] raises the same
    error after the same calls, and has yielded nothing. *)
Theorem chat_search_failure (fuel : nat) (message : string)
    (history : History) (s s' : State W)
    (t : list (event File Embedding History)) (msg : string) :
  blank message = false ->
  Py.startswith (Py.lower message) "create a handbook" = false ->
  search_supabase sv message 5 s = (t, s', Raised msg) ->
  chat sv fuel message history s = (t, s', Raised msg)
  /\ yields t = [].
Proof.
  intros B T E. unfold History in *. split.
  - unfold chat. rewrite truthy_strip, B, T. cbn [negb].
    unfold bind at 1. cbv beta. rewrite E. reflexivity.
  - pose proof (search_supabase_no_yield sv (Y:=list Turn.t) message 5 s)
      as Hy.
    rewrite E in Hy. exact Hy.
Qed.

(** The loop of [chat] over the values of the synthesis: each value
    becomes one yielded history, the calls pass through. *)
Lemma for_yields_wrap (base : History) (wrap : string -> string)
    (t : list (event File Embedding string)) :
  forall x,
    yields (fst (for_yields
                   (fun partial h =>
                      (set_last_content h (wrap partial),
                       [set_last_content h (wrap partial)]))
                   t (base ++ [Turn.mk "assistant" x])%list))
    = map (fun partial =>
             (base ++ [Turn.mk "assistant" (wrap partial)])%list)
          (yields t)
    /\ calls (fst (for_yields
                     (fun partial h =>
                        (set_last_content h (wrap partial),
                         [set_last_content h (wrap partial)]))
                     t (base ++ [Turn.mk "assistant" x])%list))
       = calls t.
Proof.
  induction t as [|[c|y] t IH]; intros x.
  - split; reflexivity.
  - cbn [for_yields].
    match goal with
    | |- context [for_yields ?b t ?l] =>
        destruct (for_yields b t l) as [r l'] eqn:E
    end.
    specialize (IH x). rewrite E in IH. cbn in *.
    destruct IH as [-> ->]. split; reflexivity.
  - cbn [for_yields]. rewrite set_last_content_snoc.
    cbn [Turn.role].
    match goal with
    | |- context [for_yields ?b t ?l] =>
        destruct (for_yields b t l) as [r l'] eqn:E
    end.
    specialize (IH (wrap y)). rewrite E in IH. cbn in *.
    destruct IH as [-> ->]. split; reflexivity.
Qed.

(** X18: for a message that starts with the handbook trigger, [chat]
    first yields the history with the user's message and a placeholder
    assistant turn, then one history per value yielded by the synthesis
    of [message[15:].strip()] with a target of 3000 words: the same
    history with the last turn replaced by the labelled partial text.
    Every yielded history is the given history plus exactly two turns;
    the external calls are those of the synthesis. *)
Theorem chat_streams_synthesis (fuel : nat) (message : string)
    (history : History) (s : State W) :
  Py.startswith (Py.lower message) "create a handbook" = true ->
  let topic := Py.strip (Py.slice_from message 15) in
  let run := generate_handbook_stream sv fuel topic 3000 s in
  let shown := chat sv fuel message history s in
  yields (fst (fst shown))
  = (history
     ++ [Turn.mk "user" message;
         Turn.mk "assistant"
           ("📖 Generating handbook on **" ++ topic ++ "** ..." ++ LFLF)])%list
    :: map (fun partial =>
              (history
               ++ [Turn.mk "user" message;
                   Turn.mk "assistant"
                     ("📖 Handbook: **" ++ topic ++ "**" ++ LFLF
                      ++ partial)])%list)
           (yields (fst (fst run)))
  /\ calls (fst (fst shown)) = calls (fst (fst run))
  /\ snd (fst shown) = snd (fst run)
  /\ snd shown
     = match snd run with
       | Returned _ => Returned None
       | Raised msg => Raised msg
       | OutOfFuel => OutOfFuel
       end.
Proof.
  intros T topic run shown. subst shown. unfold chat.
  rewrite truthy_strip, (trigger_message_not_blank message T), T.
  rewrite (trigger_topic_never_blank message T). cbn [negb].
  fold topic. unfold bind, yield, for_in. cbv zeta. fold topic. fold run.
  destruct run as [[tg sg] og]. cbn [fst snd].
  pose proof (for_yields_wrap (history ++ [Turn.mk "user" message])%list
                (fun partial =>
                   "📖 Handbook: **" ++ topic ++ "**" ++ LFLF ++ partial) tg
                ("📖 Generating handbook on **" ++ topic ++ "** ..." ++ LFLF))
    as [Hy Hc].
  cbv beta in Hy, Hc.
  match goal with
  | |- context [for_yields ?b tg ?l] =>
      change (for_yields b tg l)
        with (for_yields
                (fun partial h =>
                   (set_last_content h
                      ("📖 Handbook: **" ++ topic ++ "**" ++ LFLF ++ partial),
                    [set_last_content h
                       ("📖 Handbook: **" ++ topic ++ "**" ++ LFLF
                        ++ partial)]))
                tg
                ((history ++ [Turn.mk "user" message])
                 ++ [Turn.mk "assistant"
                       ("📖 Generating handbook on **" ++ topic ++ "** ..."
                        ++ LFLF)])%list)
  end.
  match goal with
  | |- context [for_yields ?b tg ?l] =>
      destruct (for_yields b tg l) as [t' l'] eqn:E
  end.
  cbn [fst] in Hy, Hc.
  assert (forall partial : string,
             ((history ++ [Turn.mk "user" message])
              ++ [Turn.mk "assistant"
                    ("📖 Handbook: **" ++ topic ++ "**" ++ LFLF
                     ++ partial)])%list
             = (history
                ++ [Turn.mk "user" message;
                    Turn.mk "assistant"
                      ("📖 Handbook: **" ++ topic ++ "**" ++ LFLF
                       ++ partial)])%list) as Hshape.
  { intros partial. rewrite <- app_assoc. reflexivity. }
  destruct og; cbn [fst snd app yields calls ret];
    rewrite ?app_nil_r, ?yields_app, ?calls_app; cbn [yields calls];
    rewrite ?app_nil_r, Hy, Hc, <- app_assoc; cbn [app];
    (repeat split);
    f_equal; apply map_ext; exact Hshape.
Qed.

End ChatFacts.

(** ** Instances *)

Lemma upload_pdf_stores_all_witness :
  snd (upload_pdf (Y:=unit)
         (scripted (mkPdfRead [Some "hello"; None; Some "world"] None) None
            no_stream)
         (Some tt) fresh)
  = Returned ("✅ PDF processed" ++ LF ++ "Chunks: 1",
              "hello" ++ LF ++ "world" ++ LF).
Proof.
  destruct (upload_pdf_stores_all (Y:=unit)
              (scripted (mkPdfRead [Some "hello"; None; Some "world"] None)
                 None no_stream)
              tt fresh _ _ eq_refl eq_refl) as (H & _).
  rewrite H. reflexivity.
Defined.

Lemma upload_pdf_reports_failure_witness :
  snd (upload_pdf (Y:=unit)
         (broken_store (mkPdfRead [Some "hello"] None) "store is down")
         (Some tt) fresh)
  = Returned ("❌ Error: store is down", "").
Proof.
  destruct (upload_pdf_reports_failure (Y:=unit)
              (broken_store (mkPdfRead [Some "hello"] None) "store is down")
              tt fresh _ _ "store is down" eq_refl eq_refl) as (H & _).
  rewrite H. reflexivity.
Defined.

Lemma finished_document_reaches_target_witness :
  exists parts,
    Forall clean parts
    /\ 2 <= words_in parts
    /\ last (yields
               (fst (fst (generate_handbook_stream
                            (scripted no_pdf None (mkStream [Some "a"] None))
                            2 "x" 2 fresh))))
            ""
       = Py.join LFLF parts ++ LFLF ++ FINISHED.
Proof.
  apply (finished_document_reaches_target
           (scripted no_pdf None (mkStream [Some "a"] None))
           2 "x" 2 fresh fresh);
    [reflexivity | lia | reflexivity].
Defined.

Lemma synthesis_terminates_witness :
  snd (generate_handbook_stream
         (scripted no_pdf None (mkStream [Some "a"] None)) 5 "x" 5 fresh)
  = Returned tt.
Proof.
  apply (synthesis_terminates
           (scripted no_pdf None (mkStream [Some "a"] None))).
  - intros model input w. exists tt. reflexivity.
  - intros e k w. exists None. reflexivity.
  - intros model system user max_tokens w. exists "a", [].
    split; reflexivity.
  - simpl. lia.
Defined.

Lemma chat_blank_message_witness :
  chat (scripted no_pdf (Some ["p1"]) no_stream) 3 "   "
    [Turn.mk "user" "earlier"] fresh
  = ([], fresh, Returned (Some [Turn.mk "user" "earlier"])).
Proof.
  apply (chat_blank_message (scripted no_pdf (Some ["p1"]) no_stream) 3 "   "
           [Turn.mk "user" "earlier"] fresh).
  reflexivity.
Defined.

Lemma chat_answers_with_passages_witness :
  yields (fst (fst (chat (scripted no_pdf (Some ["p1"; "p2"]) no_stream) 0
                      "hello" [] fresh)))
  = [[Turn.mk "user" "hello";
      Turn.mk "assistant" ("p1" ++ LFLF ++ "p2")]].
Proof.
  destruct (chat_answers_with_passages
              (scripted no_pdf (Some ["p1"; "p2"]) no_stream) 0 "hello" []
              fresh fresh _ "p1" ["p2"] eq_refl eq_refl eq_refl) as [_ H].
  exact H.
Defined.

Lemma chat_search_failure_witness :
  chat (broken_embedding "quota") 0 "hello" [] fresh
  = ([Call (EmbeddingsCreate "text-embedding-3-small" "hello")], fresh,
     Raised "quota").
Proof.
  destruct (chat_search_failure (broken_embedding "quota") 0 "hello" []
              fresh fresh _ "quota" eq_refl eq_refl eq_refl) as [H _].
  exact H.
Defined.

Lemma chat_streams_synthesis_witness :
  calls (fst (fst (chat (scripted no_pdf None (mkStream [Some "a"] None)) 1
                     "Create a handbook on tests" [] fresh)))
  = calls (fst (fst (generate_handbook_stream
                       (scripted no_pdf None (mkStream [Some "a"] None)) 1
                       "ok on tests" 3000 fresh))).
Proof.
  destruct (chat_streams_synthesis
              (scripted no_pdf None (mkStream [Some "a"] None)) 1
              "Create a handbook on tests" [] fresh eq_refl) as (_ & H & _).
  exact H.
Defined.

(** ** The overlap of consecutive chunks *)





(** ** The search *)

Section Search.

Context {W File Embedding Y : Type}.
Variable sv : Services W File Embedding.

(** X19: when the embedding provider and the store both answer,
    [search_supabase] makes exactly two calls, the embedding of the
    query and the match request with that embedding and [k], and
    returns the store's passages unchanged and in the store's order; a
    missing result ([None]) is returned as the empty list. *)
Theorem search_supabase_answers (query : string) (k : Z) (s : State W)
    (e : Embedding) (w1 w2 : W) (data : option (list string)) :
  embeddings_create sv "text-embedding-3-small" query (world s)
  = (Returned e, w1) ->
  rpc_match_documents sv e k w1 = (Returned data, w2) ->
  search_supabase (Y:=Y) sv query k s
  = ([Call (EmbeddingsCreate "text-embedding-3-small" query);
      Call (RpcMatchDocuments e k)],
     mkState w2 (PDF_TEXT s) (CHUNKS s),
     Returned (match data with
               | Some rows => rows
               | None => []
               end)).
Proof.
  intros He Hr. unfold search_supabase, embed, bind, extern, ret.
  rewrite He. cbn [world PDF_TEXT CHUNKS]. rewrite Hr.
  destruct data as [[|r rs]|]; reflexivity.
Qed.

End Search.

Lemma search_supabase_answers_witness :
  search_supabase (Y:=unit) (scripted no_pdf (Some ["p1"; "p2"]) no_stream)
    "what is a chunk" 5 fresh
  = ([Call (EmbeddingsCreate "text-embedding-3-small" "what is a chunk");
      Call (RpcMatchDocuments tt 5)],
     fresh, Returned ["p1"; "p2"]).
Proof.
  apply (search_supabase_answers (Y:=unit)
           (scripted no_pdf (Some ["p1"; "p2"]) no_stream)
           "what is a chunk" 5 fresh tt tt tt (Some ["p1"; "p2"]));
    reflexivity.
Defined.
